(** * bluefloodclient: the Blueflood client and its datapoints

    A shallow embedding of [bluefloodclient/client.py]: the [Datapoint]
    value object and the [Blueflood] client (token cache, service catalog,
    endpoint resolution and the request method with its single
    reauthentication), followed by the properties of the specification
    that are settled on it.

    Python values decoded from JSON are the type [pyval]; a Python dict is
    a [gmap string pyval].  Exceptions are the type [exn]; a computation
    that may raise returns a [result].  The instance attributes of the
    client are the record [Blueflood], and the calls made through the
    [requests] library are recorded, in order, in a log of [call]s. *)

From stdpp Require Import base option list strings gmap.
From Stdlib Require Import ZArith Lia Ascii.

#[local] Set Warnings "-register-all".
#[local] Open Scope Z_scope.

(** ** Python values

    The values [json.loads] produces, without floats: no operation of the
    client looks inside a number. *)

Inductive pyval : Type :=
  | PNone
  | PBool (b : bool)
  | PInt (z : Z)
  | PStr (s : string)
  | PList (l : list pyval)
  | PDict (d : gmap string pyval).

(** ** Exceptions and results *)

Inductive exn : Type :=
  | HTTPError (status : Z) (body : string)   (* raised by [raise_for_status] *)
  | RequestException (msg : string)          (* raised by the transport itself *)
  | ValueError
  | KeyError (key : string)
  | TypeError
  | AttributeError
  | Exception (msg : string).

Inductive result (A : Type) : Type :=
  | Ok (a : A)
  | Raise (e : exn).
Arguments Ok {A} a.
Arguments Raise {A} e.

#[global] Instance result_ret : MRet result := fun _ a => Ok a.
#[global] Instance result_bind : MBind result := fun _ _ f r =>
  match r with
  | Ok a => f a
  | Raise e => Raise e
  end.

(** [x is None] *)
Definition is_None (v : pyval) : bool :=
  match v with
  | PNone => true
  | _ => false
  end.

(** [v == s] for a string literal or a string argument [s]: only a string
    value compares equal to a string. *)
Definition py_eq_str (v : pyval) (s : string) : bool :=
  match v with
  | PStr s' => bool_decide (s' = s)
  | _ => false
  end.

(** [v[key]] for a string key: a dict is looked up, and raises [KeyError]
    when the key is missing; no other JSON value can be indexed by a
    string. *)
Definition getitem (v : pyval) (key : string) : result pyval :=
  match v with
  | PDict d =>
      match d !! key with
      | Some x => Ok x
      | None => Raise (KeyError key)
      end
  | _ => Raise TypeError
  end.

(** [v.get(key, default)]: only a dict has the method. *)
Definition py_get (v : pyval) (key : string) (dflt : pyval) : result pyval :=
  match v with
  | PDict d => Ok (default dflt (d !! key))
  | _ => Raise AttributeError
  end.

(** The items a [for] loop over [v] visits: the elements of a list, the
    keys of a dict, the characters of a string; the other values are not
    iterable.  (The order of the keys of a dict is that of [map_to_list];
    the loops below raise on every string item, whatever the order.) *)
Definition py_iter (v : pyval) : result (list pyval) :=
  match v with
  | PList l => Ok l
  | PDict d => Ok (PStr <$> (map_to_list d).*1)
  | PStr s => Ok ((fun a => PStr (String a EmptyString)) <$> String.list_ascii_of_string s)
  | _ => Raise TypeError
  end.

(** ** Datapoint *)

(** [60 * 60 * 24 * 180] *)
Definition default_ttl : Z := 60 * 60 * 24 * 180.

(** [not ttl_seconds], for [ttl_seconds] either [None] or an integer. *)
Definition not_ttl (ttl_seconds : option Z) : bool :=
  match ttl_seconds with
  | None => true
  | Some z => bool_decide (z = 0)
  end.

(** [Datapoint.__init__]; the datapoint is the dict itself.  [now] is what
    [utils.time_in_ms()] returns when it is called.  [collection_time] and
    [ttl_seconds] are [None] or an integer: a float, which the code would
    store as it is given, is outside this model. *)
Definition Datapoint (now : Z) (name : string) (value : pyval)
    (collection_time : option Z) (ttl_seconds : option Z)
    (unit : option string) : gmap string pyval :=
  let self : gmap string pyval := ∅ in
  let self := <["metricValue" := value]> self in
  let self := <["metricName" := PStr name]> self in
  let collection_time :=
    match collection_time with
    | None => now
    | Some t => t
    end in
  let self := <["collectionTime" := PInt collection_time]> self in
  let ttl_seconds :=
    match ttl_seconds with
    | Some z => if not_ttl (Some z) then default_ttl else z
    | None => default_ttl
    end in
  let ttl_seconds := Z.max ttl_seconds 0 in
  let self := <["ttlInSeconds" := PInt ttl_seconds]> self in
  match unit with
  | Some u => if bool_decide (u = "") then self else <["unit" := PStr u]> self
  | None => self
  end.

Definition ttlInSeconds (dp : gmap string pyval) : option pyval := dp !! "ttlInSeconds".

(** ** The client and the calls it makes *)

(** The verbs [request] documents for [method]; [getattr(requests, method)]
    is the function of that name. *)
Inductive http_method : Type := GET | POST | PUT | DELETE.

(** The keyword arguments of a call: [headers], [params] and [data]. *)
Record kwargs : Type := {
  kw_headers : gmap string pyval;
  kw_params : option pyval;
  kw_data : option string
}.

(** A call through [requests], by the place that makes it: the post of the
    credentials in [get_token], and [func(url, **kwargs)] in [request]. *)
Inductive call : Type :=
  | IdentityPost (url : string) (data : string) (headers : gmap string pyval)
  | DataCall (func : http_method) (url : string) (kw : kwargs).

Record Response : Type := {
  status_code : Z;
  text : string
}.

(** What the client imports: [json.loads] as [Response.json] uses it
    ([None] when it raises [ValueError]), [json.dumps], [urljoin], and the
    transport behind [requests], which answers a call, given the calls made
    before it, with a response or an exception. *)
Class Externals : Type := {
  json_loads : string -> option pyval;
  json_dumps : pyval -> string;
  urljoin : option string -> string -> string;
  network : list call -> call -> result Response
}.

(** The attributes of a [Blueflood] instance. *)
Record Blueflood : Type := {
  auth_url : option string;
  _read_url : option string;
  _ingest_url : option string;
  apikey : pyval;
  username : pyval;
  _token : pyval;
  read_service : pyval;
  ingest_service : pyval;
  region : string
}.

Definition set_token (t : pyval) (self : Blueflood) : Blueflood :=
  {| auth_url := auth_url self; _read_url := _read_url self;
     _ingest_url := _ingest_url self; apikey := apikey self;
     username := username self; _token := t;
     read_service := read_service self;
     ingest_service := ingest_service self; region := region self |}.

Definition set_read_service (s : pyval) (self : Blueflood) : Blueflood :=
  {| auth_url := auth_url self; _read_url := _read_url self;
     _ingest_url := _ingest_url self; apikey := apikey self;
     username := username self; _token := _token self;
     read_service := s;
     ingest_service := ingest_service self; region := region self |}.

Definition set_ingest_service (s : pyval) (self : Blueflood) : Blueflood :=
  {| auth_url := auth_url self; _read_url := _read_url self;
     _ingest_url := _ingest_url self; apikey := apikey self;
     username := username self; _token := _token self;
     read_service := read_service self;
     ingest_service := s; region := region self |}.

(** The client together with the log of the calls made so far. *)
Record world : Type := {
  client : Blueflood;
  log : list call
}.

(** A method of the client: it may change the client, make calls, and
    return or raise.  The changes made before an exception stay. *)
Definition M (A : Type) : Type := world -> world * result A.

#[global] Instance M_ret : MRet M := fun _ a w => (w, Ok a).
#[global] Instance M_bind : MBind M := fun _ _ f m w =>
  match m w with
  | (w', Ok a) => f a w'
  | (w', Raise e) => (w', Raise e)
  end.

Definition get_self : M Blueflood := fun w => (w, Ok (client w)).

Definition modify (f : Blueflood -> Blueflood) : M unit :=
  fun w => ({| client := f (client w); log := log w |}, Ok tt).

Definition lift {A : Type} (r : result A) : M A := fun w => (w, r).

(** Make the call [c]: it is appended to the log and the transport answers. *)
Definition requests_call `{E : Externals} (c : call) : M Response :=
  fun w => ({| client := client w; log := log w ++ [c] |}, network (log w) c).

(** [Response.raise_for_status]: a status from 400 to 599 raises. *)
Definition raise_for_status (resp : Response) : result unit :=
  if bool_decide (400 <= status_code resp < 600)
  then Raise (HTTPError (status_code resp) (text resp))
  else Ok tt.

(** [Response.json]: the body decoded, or [ValueError]. *)
Definition Response_json `{E : Externals} (resp : Response) : result pyval :=
  match json_loads (text resp) with
  | Some v => Ok v
  | None => Raise ValueError
  end.

Definition base_headers : gmap string pyval :=
  <["Accept" := PStr "application/json"]>
    (<["Content-Type" := PStr "application/json"]> ∅).

Definition ingest_name : string := "cloudMetricsIngest".
Definition read_name : string := "cloudMetrics".

(** [invalidate_token] *)
Definition invalidate_token (self : Blueflood) : Blueflood := set_token PNone self.

(** The body of the loop of [update_catalog], over the items left. *)
Fixpoint update_catalog_loop (items : list pyval) : M unit :=
  match items with
  | [] => mret tt
  | s :: items =>
      name ← lift (getitem s "name");
      if py_eq_str name ingest_name then
        modify (set_ingest_service s);; update_catalog_loop items
      else
        name ← lift (getitem s "name");
        if py_eq_str name read_name then
          modify (set_read_service s);; update_catalog_loop items
        else update_catalog_loop items
  end.

(** [update_catalog] *)
Definition update_catalog (service_catalog : pyval) : M unit :=
  items ← lift (py_iter service_catalog);
  update_catalog_loop items.

(** The credential payload of [get_token]. *)
Definition credentials (self : Blueflood) : pyval :=
  PDict {[ "auth" :=
    PDict {[ "RAX-KSKEY:apiKeyCredentials" :=
      PDict (<["username" := username self]> {[ "apiKey" := apikey self ]}) ]} ]}.

(** The call [get_token] makes: the credentials posted to
    [urljoin(self.auth_url, 'tokens')] with the base headers. *)
Definition identity_call `{E : Externals} (self : Blueflood) : call :=
  let headers := base_headers in
  let data := credentials self in
  IdentityPost (urljoin (auth_url self) "tokens") (json_dumps data) headers.

(** [get_token] from the response on: [raise_for_status], the body
    decoded, the token stored, then the catalog updated. *)
Definition get_token_finish `{E : Externals} (resp : Response) : M pyval :=
  lift (raise_for_status resp);;
  resp_json ← lift (Response_json resp);
  tok ← lift (access ← getitem resp_json "access";
              token ← getitem access "token";
              getitem token "id");
  modify (set_token tok);;
  cat ← lift (access ← getitem resp_json "access";
              getitem access "serviceCatalog");
  update_catalog cat;;
  self ← get_self;
  mret (_token self).

(** [get_token] *)
Definition get_token `{E : Externals} : M pyval :=
  self ← get_self;
  if negb (is_None (_token self)) then mret (_token self) else
  resp ← requests_call (identity_call self);
  get_token_finish resp.

(** The attributes as [Blueflood.__init__] sets them. *)
Definition initial_attributes (auth_url : option string)
    (apikey username : pyval) (region : string)
    (ingest_url read_url : option string) : Blueflood :=
  {| auth_url := auth_url; _read_url := read_url;
     _ingest_url := ingest_url; apikey := apikey; username := username;
     _token := PNone; read_service := PNone; ingest_service := PNone;
     region := region |}.

(** [Blueflood.__init__]: the attributes are set, then [get_token] is
    called and its value dropped. *)
Definition Blueflood__init__ `{E : Externals} (auth_url : option string)
    (apikey username : pyval) (region : string)
    (ingest_url read_url : option string) : M unit :=
  modify (fun _ =>
    initial_attributes auth_url apikey username region ingest_url read_url);;
  get_token;;
  mret tt.

(** The loop of [url_for_region]; falling off its end returns [None]. *)
Fixpoint url_for_region_loop (endpoints : list pyval) (region : string) : result pyval :=
  match endpoints with
  | [] => Ok PNone
  | e :: endpoints =>
      r ← py_get e "region" PNone;
      if py_eq_str r region then getitem e "publicURL"
      else url_for_region_loop endpoints region
  end.

(** [url_for_region] *)
Definition url_for_region (service : pyval) (region : string) : result pyval :=
  endpoints ← py_get service "endpoints" (PList []);
  items ← py_iter endpoints;
  url_for_region_loop items region.

(** [read_url] *)
Definition read_url (self : Blueflood) (region : string) : result pyval :=
  match _read_url self with
  | Some u => Ok (PStr u)
  | None =>
      if negb (is_None (read_service self))
      then url_for_region (read_service self) region
      else Raise (Exception "No read service found")
  end.

(** [ingest_url] *)
Definition ingest_url (self : Blueflood) (region : string) : result pyval :=
  match _ingest_url self with
  | Some u => Ok (PStr u)
  | None =>
      if negb (is_None (ingest_service self))
      then url_for_region (ingest_service self) region
      else Raise (Exception "No ingest service found")
  end.

Definition set_headers (h : gmap string pyval) (kw : kwargs) : kwargs :=
  {| kw_headers := h; kw_params := kw_params kw; kw_data := kw_data kw |}.

(** The keyword arguments [request] builds before the first call: the base
    headers with the token, then [params], the caller's [headers] (which
    win on a shared key) and the dumped [data], each when it is not
    [None]. *)
Definition request_kwargs `{E : Externals} (token : pyval) (data : pyval)
    (headers : option (gmap string pyval)) (params : pyval) : kwargs :=
  let _headers := <["X-Auth-Token" := token]> base_headers in
  let kw := {| kw_headers := _headers; kw_params := None; kw_data := None |} in
  let kw :=
    if negb (is_None params)
    then {| kw_headers := kw_headers kw; kw_params := Some params; kw_data := kw_data kw |}
    else kw in
  let kw :=
    match headers with
    | Some h => set_headers (h ∪ kw_headers kw) kw
    | None => kw
    end in
  if negb (is_None data)
  then {| kw_headers := kw_headers kw; kw_params := kw_params kw;
          kw_data := Some (json_dumps data) |}
  else kw.

(** [request] *)
Definition request `{E : Externals} (url : string) (method : http_method)
    (data : pyval) (headers : option (gmap string pyval)) (params : pyval)
    : M pyval :=
  let func := fun kw => requests_call (DataCall method url kw) in
  token ← get_token;
  let kw := request_kwargs token data headers params in
  resp ← func kw;
  resp ← (if bool_decide (status_code resp = 401) then
            modify invalidate_token;;
            token ← get_token;
            let kw := set_headers (<["X-Auth-Token" := token]> (kw_headers kw)) kw in
            func kw
          else mret resp);
  lift (raise_for_status resp);;
  match json_loads (text resp) with
  | Some resp_json => mret resp_json
  | None => mret PNone
  end.

(** [request] up to the response it ends with (the first one, or the
    replayed one after a 401). *)
Definition request_send `{E : Externals} (url : string) (method : http_method)
    (data : pyval) (headers : option (gmap string pyval)) (params : pyval)
    : M Response :=
  let func := fun kw => requests_call (DataCall method url kw) in
  token ← get_token;
  let kw := request_kwargs token data headers params in
  resp ← func kw;
  if bool_decide (status_code resp = 401) then
    modify invalidate_token;;
    token ← get_token;
    let kw := set_headers (<["X-Auth-Token" := token]> (kw_headers kw)) kw in
    func kw
  else mret resp.

(** The end of [request], from [raise_for_status] on. *)
Definition request_finish `{E : Externals} (resp : Response) : result pyval :=
  raise_for_status resp;;
  match json_loads (text resp) with
  | Some resp_json => Ok resp_json
  | None => Ok PNone
  end.

(** ** Counting the calls in a log *)

Definition is_identity (c : call) : bool :=
  match c with
  | IdentityPost _ _ _ => true
  | DataCall _ _ _ => false
  end.

Definition is_data (c : call) : bool := negb (is_identity c).

(** The identity exchanges and the data-plane sends in a log. *)
Definition identity_exchanges (l : list call) : nat := length (filter is_identity l).
Definition data_sends (l : list call) : nat := length (filter is_data l).

(** The attributes that only [__init__] sets are the same in both. *)
Definition same_config (self self' : Blueflood) : Prop :=
  auth_url self' = auth_url self
  /\ _read_url self' = _read_url self
  /\ _ingest_url self' = _ingest_url self
  /\ apikey self' = apikey self
  /\ username self' = username self
  /\ region self' = region self.

(** ** What an identity response carries *)

(** The token id of an identity response, as [get_token] reads it. *)
Definition token_id `{E : Externals} (resp : Response) : result pyval :=
  resp_json ← Response_json resp;
  access ← getitem resp_json "access";
  token ← getitem access "token";
  getitem token "id".

(** The entries of the service catalog of an identity response, as
    [update_catalog] visits them. *)
Definition catalog_items `{E : Externals} (resp : Response) : result (list pyval) :=
  resp_json ← Response_json resp;
  access ← getitem resp_json "access";
  cat ← getitem access "serviceCatalog";
  py_iter cat.

(** [s['name'] == name] holds. *)
Definition named (name : string) (s : pyval) : bool :=
  match getitem s "name" with
  | Ok n => py_eq_str n name
  | Raise _ => false
  end.

(** The last entry called [name] among [items], if there is one. *)
Definition last_named (name : string) (items : list pyval) : option pyval :=
  last (filter (fun s => named name s = true) items).

(** No item of [endpoints] is for [region]: each is a dict whose region, if
    it has one, is another value. *)
Definition no_endpoint_for (region : string) (endpoints : list pyval) : Prop :=
  Forall (fun e => exists r, py_get e "region" PNone = Ok r /\ py_eq_str r region = false)
         endpoints.

(** ** The query helpers and the methods built on request *)

(** [bool(v)]: the truth value of [v] in a condition. *)
Definition truthy (v : pyval) : bool :=
  match v with
  | PNone => false
  | PBool b => b
  | PInt z => negb (bool_decide (z = 0))
  | PStr s => negb (bool_decide (s = ""))
  | PList l => match l with [] => false | _ :: _ => true end
  | PDict d => match map_to_list d with [] => false | _ :: _ => true end
  end.

(** [sep.join(l)] *)
Fixpoint str_join (sep : string) (l : list string) : string :=
  match l with
  | [] => ""
  | x :: l' =>
      match l' with
      | [] => x
      | _ :: _ => x +:+ sep +:+ str_join sep l'
      end
  end.

Definition selectables : list string :=
  ["average"; "min"; "max"; "numPoints"; "variance"].

(** [s in kwargs and kwargs.get(s)], as a condition. *)
Definition selected (kwargs : gmap string pyval) (s : string) : bool :=
  match kwargs !! s with
  | Some v => truthy v
  | None => false
  end.

(** [selects]; [kwargs] is the dict of the keyword arguments. *)
Definition selects (kwargs : gmap string pyval) : string :=
  str_join "," (filter (fun s => selected kwargs s = true) selectables).

(** [read_params] *)
Definition read_params (start stop points resolution : pyval) : gmap string pyval :=
  let params : gmap string pyval := <["from" := start]> (<["to" := stop]> ∅) in
  if truthy resolution then <["resolution" := resolution]> params
  else if truthy points then <["points" := points]> params
  else params.

(** What ['%s' % v] prints for a value that is neither a string nor
    [None]: Python's own formatting of numbers, lists and dicts. *)
Class Formatting : Type := {
  format_other : pyval -> string
}.

(** ['%s' % v] *)
Definition py_str `{F : Formatting} (v : pyval) : string :=
  match v with
  | PStr s => s
  | PNone => "None"
  | _ => format_other v
  end.

(** [find_metrics]; [read_url()] is called with its default region. *)
Definition find_metrics `{E : Externals} `{F : Formatting} (query : pyval) : M pyval :=
  let params := PDict {[ "query" := query ]} in
  self ← get_self;
  base ← lift (read_url self "IAD");
  let url := py_str base +:+ "/" +:+ "metrics/search" in
  request url GET PNone None params.

(** [ingest] *)
Definition ingest `{E : Externals} `{F : Formatting} (data : pyval) : M pyval :=
  let data :=
    match data with
    | PList _ => data
    | _ => PList [data]
    end in
  self ← get_self;
  base ← lift (ingest_url self "IAD");
  let url := py_str base +:+ "/ingest" in
  request url POST data None PNone.

(** The parameters [get_metrics] sends: those of [read_params], with
    [select] when there are keyword arguments and [selects] is not empty. *)
Definition get_metrics_params (start stop points resolution : pyval)
    (kwargs : gmap string pyval) : gmap string pyval :=
  let params := read_params start stop points resolution in
  let selects := if truthy (PDict kwargs) then PStr (selects kwargs) else PNone in
  if truthy selects then <["select" := selects]> params else params.

(** [get_metrics] *)
Definition get_metrics `{E : Externals} `{F : Formatting}
    (start stop metrics points resolution : pyval)
    (kwargs : gmap string pyval) : M pyval :=
  self ← get_self;
  base ← lift (read_url self "IAD");
  let url := py_str base +:+ "/views" in
  let params := get_metrics_params start stop points resolution kwargs in
  request url POST metrics None (PDict params).

(** The client with another [region] attribute. *)
Definition set_region (r : string) (self : Blueflood) : Blueflood :=
  {| auth_url := auth_url self; _read_url := _read_url self;
     _ingest_url := _ingest_url self; apikey := apikey self;
     username := username self; _token := _token self;
     read_service := read_service self;
     ingest_service := ingest_service self; region := r |}.

Definition world_set_region (r : string) (w : world) : world :=
  {| client := set_region r (client w); log := log w |}.

(** [e] is an endpoint for [region]: a dict whose region is that string. *)
Definition endpoint_for (region : string) (e : pyval) : Prop :=
  exists r, py_get e "region" PNone = Ok r /\ py_eq_str r region = true.

(** [s] is a catalog entry that [update_catalog] passes over: it has a
    name, which is neither of the two the client looks for. *)
Definition other_entry (s : pyval) : Prop :=
  exists n, getitem s "name" = Ok n
    /\ py_eq_str n ingest_name = false /\ py_eq_str n read_name = false.

(** ** A decoder and an encoder for closed examples

    The properties below hold for every [Externals].  The closed examples
    need one: [Json.loads] decodes a fragment of JSON (null, true, false,
    integers, strings without escapes, arrays, objects) and [Json.dumps]
    prints a value in it. *)
Module Json.

Definition dquote : Ascii.ascii := Ascii.ascii_of_nat 34.

(** A text written with ['] where JSON has the double quote. *)
Definition q (s : string) : string :=
  String.string_of_list_ascii
    ((fun a => if Ascii.eqb a "'"%char then dquote else a) <$> String.list_ascii_of_string s).

Definition is_ws (a : Ascii.ascii) : bool :=
  bool_decide (Ascii.nat_of_ascii a ∈ [32; 9; 10; 13]%nat).

Definition is_digit (a : Ascii.ascii) : bool :=
  bool_decide (48 <= Ascii.nat_of_ascii a <= 57)%nat.

Fixpoint skip_ws (s : list Ascii.ascii) : list Ascii.ascii :=
  match s with
  | a :: r => if is_ws a then skip_ws r else s
  | [] => []
  end.

(** The rest of [s] after the prefix [p], when [s] starts with it. *)
Fixpoint after (p s : list Ascii.ascii) : option (list Ascii.ascii) :=
  match p, s with
  | [], _ => Some s
  | a :: p, b :: s => if Ascii.eqb a b then after p s else None
  | _ :: _, [] => None
  end.

(** The characters up to the closing quote; an escape is refused. *)
Fixpoint read_string (s : list Ascii.ascii) (acc : list Ascii.ascii) : option (string * list Ascii.ascii) :=
  match s with
  | [] => None
  | a :: r =>
      if Ascii.eqb a dquote then Some (String.string_of_list_ascii (rev acc), r)
      else if Ascii.eqb a "\"%char then None
      else read_string r (a :: acc)
  end.

Fixpoint read_digits (s : list Ascii.ascii) (acc : Z) : Z * list Ascii.ascii :=
  match s with
  | a :: r =>
      if is_digit a
      then read_digits r (10 * acc + (Z.of_nat (Ascii.nat_of_ascii a) - 48))
      else (acc, s)
  | [] => (acc, [])
  end.

Inductive goal : Type :=
  | Value
  | Elements (acc : list pyval)
  | Members (acc : gmap string pyval).

Fixpoint parse (fuel : nat) (g : goal) (s : list Ascii.ascii) : option (pyval * list Ascii.ascii) :=
  match fuel with
  | O => None
  | S fuel =>
    match g with
    | Value =>
        match skip_ws s with
        | [] => None
        | a :: r =>
            if Ascii.eqb a dquote then
              '(str, r) ← read_string r []; Some (PStr str, r)
            else if Ascii.eqb a "["%char then
              match after ["]"%char] (skip_ws r) with
              | Some r' => Some (PList [], r')
              | None => parse fuel (Elements []) r
              end
            else if Ascii.eqb a "{"%char then
              match after ["}"%char] (skip_ws r) with
              | Some r' => Some (PDict ∅, r')
              | None => parse fuel (Members ∅) r
              end
            else if Ascii.eqb a "-"%char then
              match r with
              | b :: _ =>
                  if is_digit b
                  then let '(z, r') := read_digits r 0 in Some (PInt (- z), r')
                  else None
              | [] => None
              end
            else if is_digit a then
              let '(z, r') := read_digits (a :: r) 0 in Some (PInt z, r')
            else
              match after (String.list_ascii_of_string "null") (a :: r),
                    after (String.list_ascii_of_string "true") (a :: r),
                    after (String.list_ascii_of_string "false") (a :: r) with
              | Some r', _, _ => Some (PNone, r')
              | _, Some r', _ => Some (PBool true, r')
              | _, _, Some r' => Some (PBool false, r')
              | _, _, _ => None
              end
        end
    | Elements acc =>
        '(v, r) ← parse fuel Value s;
        match skip_ws r with
        | a :: r' =>
            if Ascii.eqb a ","%char then parse fuel (Elements (acc ++ [v])) r'
            else if Ascii.eqb a "]"%char then Some (PList (acc ++ [v]), r')
            else None
        | [] => None
        end
    | Members acc =>
        r ← after [dquote] (skip_ws s);
        '(k, r) ← read_string r [];
        r ← after [":"%char] (skip_ws r);
        '(v, r) ← parse fuel Value r;
        match skip_ws r with
        | a :: r' =>
            if Ascii.eqb a ","%char then parse fuel (Members (<[k := v]> acc)) r'
            else if Ascii.eqb a "}"%char then Some (PDict (<[k := v]> acc), r')
            else None
        | [] => None
        end
    end
  end.

Definition loads (s : string) : option pyval :=
  let cs := String.list_ascii_of_string s in
  '(v, r) ← parse (2 * length cs + 2) Value cs;
  match skip_ws r with
  | [] => Some v
  | _ :: _ => None
  end.

Definition quoted (s : string) : string :=
  String dquote (s +:+ String dquote EmptyString).

Definition join (sep : string) (l : list string) : string :=
  match l with
  | [] => ""
  | x :: l => foldl (fun acc y => acc +:+ sep +:+ y) x l
  end.

Definition digit_string (n : nat) : string :=
  String (Ascii.ascii_of_nat (48 + n)) EmptyString.

Fixpoint nat_string (fuel n : nat) : string :=
  match fuel with
  | O => ""
  | S fuel =>
      if bool_decide (n < 10)%nat then digit_string n
      else (nat_string fuel (n / 10) +:+ digit_string (n mod 10))%nat
  end.

Definition int_string (z : Z) : string :=
  let n := Z.to_nat (Z.abs z) in
  (if bool_decide (z < 0) then "-" else "") +:+ nat_string (S n) n.

Fixpoint dumps (v : pyval) : string :=
  match v with
  | PNone => "null"
  | PBool true => "true"
  | PBool false => "false"
  | PInt z => int_string z
  | PStr s => quoted s
  | PList l => "[" +:+ join ", " (dumps <$> l) +:+ "]"
  | PDict d =>
      "{" +:+ join ", " ((fun kv => quoted kv.1 +:+ ": " +:+ kv.2) <$> map_to_list (dumps <$> d)) +:+ "}"
  end.

End Json.

(** ** Transports for closed examples *)
Module Sample.

(** A transport that answers the n-th identity exchange and the n-th
    data-plane send from two scripts. *)
Definition scripted (identity data : nat -> result Response)
    : list call -> call -> result Response :=
  fun l c =>
    match c with
    | IdentityPost _ _ _ => identity (identity_exchanges l)
    | DataCall _ _ _ => data (data_sends l)
    end.

(** [urljoin] on a base that ends with a slash. *)
Definition externals (identity data : nat -> result Response) : Externals :=
  {| json_loads := Json.loads;
     json_dumps := Json.dumps;
     urljoin := fun base url => default "" base +:+ url;
     network := scripted identity data |}.

Definition ord_endpoint : pyval :=
  PDict (<["region" := PStr "ORD"]> {[ "publicURL" := PStr "https://ord.metrics.example/v2.0/1" ]}).

Definition iad_endpoint : pyval :=
  PDict (<["region" := PStr "IAD"]> {[ "publicURL" := PStr "https://iad.metrics.example/v2.0/1" ]}).

Definition service (name : string) (endpoints : list pyval) : pyval :=
  PDict (<["name" := PStr name]> (<["type" := PStr "rax:monitor"]>
    {[ "endpoints" := PList endpoints ]})).

(** The body of an identity response with the token [id] and the catalog
    [catalog]. *)
Definition access_body (id : string) (catalog : list pyval) : string :=
  Json.dumps (PDict {[ "access" :=
    PDict (<["token" := PDict {[ "id" := PStr id ]}]>
           {[ "serviceCatalog" := PList catalog ]}) ]}).

Definition full_catalog : list pyval :=
  [service "cloudMetricsIngest" [iad_endpoint]; service "cloudMetrics" [iad_endpoint]].

(** The first exchange gives the token tok0 and both services, every later
    one the token tok1 and an empty catalog. *)
Definition identity_script (n : nat) : result Response :=
  match n with
  | O => Ok {| status_code := 200; text := access_body "tok0" full_catalog |}
  | S _ => Ok {| status_code := 200; text := access_body "tok1" [] |}
  end.

Definition always_401 (n : nat) : result Response :=
  Ok {| status_code := 401; text := "Unauthorized" |}.

Definition once_401 (n : nat) : result Response :=
  match n with
  | O => Ok {| status_code := 401; text := "Unauthorized" |}
  | S _ => Ok {| status_code := 200; text := Json.q "['a.b.c', 'a.b.d']" |}
  end.

Definition no_content (n : nat) : result Response :=
  Ok {| status_code := 200; text := "" |}.

(** A client as [__init__] sets it before it calls [get_token]. *)
Definition fresh : Blueflood :=
  initial_attributes (Some "https://identity.example/v2.0/")
    (PStr "key") (PStr "user") "IAD" None None.

Definition start : world := {| client := fresh; log := [] |}.

(** A client with both overrides and no catalog. *)
Definition overridden : Blueflood :=
  initial_attributes (Some "https://identity.example/v2.0/")
    (PStr "key") (PStr "user") "IAD"
    (Some "https://ingest.example/v2.0/1") (Some "https://read.example/v2.0/1").

(** A client whose two services only have an endpoint in ORD. *)
Definition ord_only : Blueflood :=
  set_read_service (service "cloudMetrics" [ord_endpoint])
    (set_ingest_service (service "cloudMetricsIngest" [ord_endpoint])
       (set_token (PStr "tok0") fresh)).

Definition rejecting : Externals := externals identity_script always_401.
Definition expiring : Externals := externals identity_script once_401.
Definition silent : Externals := externals identity_script no_content.

(** The world after a first [get_token], and the same with the token
    invalidated. *)
Definition authenticated (E : Externals) : world := (get_token start).1.

Definition expired (E : Externals) : world :=
  {| client := invalidate_token (client (authenticated E));
     log := log (authenticated E) |}.

End Sample.

(** ** More transports and clients for closed examples *)
Module Fixture.

(** ['%s'] of a number, a list or a dict: the JSON text stands for
    Python's own; the examples only format strings and [None]. *)
Definition formatting : Formatting := {| format_other := Json.dumps |}.

Definition forbidden (n : nat) : result Response :=
  Ok {| status_code := 403; text := "Forbidden" |}.

(** An identity response with a token and no serviceCatalog. *)
Definition token_only (n : nat) : result Response :=
  Ok {| status_code := 200;
        text := Json.dumps (PDict {[ "access" :=
                  PDict {[ "token" := PDict {[ "id" := PStr "tok0" ]} ]} ]}) |}.

(** The first exchange succeeds, the later ones are refused. *)
Definition identity_once (n : nat) : result Response :=
  match n with
  | O => Sample.identity_script O
  | S _ => forbidden n
  end.

Definition server_error (n : nat) : result Response :=
  Ok {| status_code := 500; text := "Internal Server Error" |}.

Definition unreachable (n : nat) : result Response :=
  Raise (RequestException "Connection refused").

Definition locked_out : Externals := Sample.externals forbidden Sample.no_content.
Definition no_catalog : Externals := Sample.externals token_only Sample.no_content.
Definition revoked : Externals := Sample.externals identity_once Sample.always_401.
Definition failing : Externals := Sample.externals Sample.identity_script server_error.
Definition offline : Externals := Sample.externals Sample.identity_script unreachable.

(** An entry without a name, and one of another service. *)
Definition nameless : pyval := PDict {[ "type" := PStr "compute" ]}.
Definition compute : pyval := Sample.service "cloudServers" [Sample.iad_endpoint].

Definition iad_second : pyval :=
  PDict (<["region" := PStr "IAD"]> {[ "publicURL" := PStr "https://iad2.metrics.example/v2.0/1" ]}).

(** The endpoints ORD, IAD, IAD. *)
Definition three_endpoints : gmap string pyval :=
  {[ "endpoints" := PList [Sample.ord_endpoint; Sample.iad_endpoint; iad_second] ]}.

(** An endpoints list with a string where a dict should be. *)
Definition broken_endpoints : gmap string pyval :=
  {[ "endpoints" := PList [Sample.ord_endpoint; PStr "IAD"] ]}.

Definition own_headers : gmap string pyval :=
  <["X-Auth-Token" := PStr "mine"]> {[ "Accept" := PStr "text/plain" ]}.

Definition point : pyval :=
  PDict (Datapoint 1442262994835 "james.test.number" (PInt 55) None (Some 3600) None).

Definition search_url : string := "https://read.example/v2.0/1/metrics/search".
Definition star : pyval := PDict {[ "query" := PStr "*" ]}.

End Fixture.

(** Unfold the operations of [M] in the goal and the hypotheses. *)
Ltac run :=
  unfold mbind, M_bind, mret, M_ret, lift, modify, get_self, requests_call in *;
  simpl in *.

(** ** Datapoint *)

Lemma Datapoint_ttlInSeconds now name value collection_time ttl_seconds unit :
  ttlInSeconds (Datapoint now name value collection_time ttl_seconds unit) =
  Some (PInt (Z.max (match ttl_seconds with
                     | Some z => if not_ttl (Some z) then default_ttl else z
                     | None => default_ttl
                     end) 0)).
Proof.
  unfold ttlInSeconds, Datapoint.
  destruct unit as [u|]; [case_bool_decide|]; by simplify_map_eq.
Qed.

(** C8: a datapoint built without a TTL has ttlInSeconds 15552000, and one
    built with a negative ttl_seconds has ttlInSeconds 0. *)
Theorem Datapoint_default_ttl now name value collection_time unit (ttl : Z) :
  ttlInSeconds (Datapoint now name value collection_time None unit)
    = Some (PInt 15552000)
  /\ (ttl < 0 ->
      ttlInSeconds (Datapoint now name value collection_time (Some ttl) unit)
        = Some (PInt 0)).
Proof.
  split.
  - by rewrite Datapoint_ttlInSeconds.
  - intros Hneg. rewrite Datapoint_ttlInSeconds. unfold not_ttl.
    case_bool_decide; [lia|]. do 2 f_equal. lia.
Qed.

(** A datapoint built with ttl_seconds=-5 stores 0. *)
Lemma Datapoint_default_ttl_witness :
  -5 < 0 /\
  ttlInSeconds (Datapoint 1442262994835 "james.test.number" (PInt 55) None (Some (-5)) None)
    = Some (PInt 0).
Proof.
  split; [reflexivity|].
  apply (Datapoint_default_ttl 1442262994835 "james.test.number" (PInt 55) None None (-5)).
  reflexivity.
Defined.

(** C10: an explicit ttl_seconds of 0 gives ttlInSeconds 15552000: the
    default replaces every falsy TTL, so the value stored is 0 only for a
    negative ttl_seconds. *)
Theorem Datapoint_zero_ttl now name value collection_time unit :
  ttlInSeconds (Datapoint now name value collection_time (Some 0) unit)
    = Some (PInt 15552000)
  /\ forall ttl_seconds,
      ttlInSeconds (Datapoint now name value collection_time ttl_seconds unit)
        = Some (PInt (if not_ttl ttl_seconds then 15552000
                      else Z.max (default 0 ttl_seconds) 0)).
Proof.
  split; [by rewrite Datapoint_ttlInSeconds|].
  intros [z|]; rewrite Datapoint_ttlInSeconds; [|done].
  by destruct (not_ttl (Some z)).
Qed.

(** ** invalidate_token *)

(** C7: invalidate_token leaves the token absent, a second call changes
    nothing, and every other attribute of the client, the two catalog
    services among them, is as before. *)
Theorem invalidate_token_clears (self : Blueflood) :
  _token (invalidate_token self) = PNone
  /\ invalidate_token (invalidate_token self) = invalidate_token self
  /\ read_service (invalidate_token self) = read_service self
  /\ ingest_service (invalidate_token self) = ingest_service self
  /\ auth_url (invalidate_token self) = auth_url self
  /\ _read_url (invalidate_token self) = _read_url self
  /\ _ingest_url (invalidate_token self) = _ingest_url self
  /\ apikey (invalidate_token self) = apikey self
  /\ username (invalidate_token self) = username self
  /\ region (invalidate_token self) = region self.
Proof. by repeat split. Qed.

(** ** Endpoint resolution *)

(** C6: with an override configured for a kind, the method of that kind
    returns it, whatever the catalog holds and whether or not the other
    kind has an override: the stored service may be replaced by any value,
    absent or malformed, and the result is the same. *)
Theorem override_precedence (self : Blueflood) (region : string) :
  (forall r : string,
     _read_url self = Some r ->
     read_url self region = Ok (PStr r)
     /\ forall svc : pyval,
         read_url (set_read_service svc self) region = Ok (PStr r))
  /\ (forall i : string,
     _ingest_url self = Some i ->
     ingest_url self region = Ok (PStr i)
     /\ forall svc : pyval,
         ingest_url (set_ingest_service svc self) region = Ok (PStr i)).
Proof.
  split.
  - intros r Hr. unfold read_url. simpl. by rewrite Hr.
  - intros i Hi. unfold ingest_url. simpl. by rewrite Hi.
Qed.

Lemma url_for_region_loop_no_match (region : string) (endpoints : list pyval) :
  no_endpoint_for region endpoints ->
  url_for_region_loop endpoints region = Ok PNone.
Proof.
  induction 1 as [|e endpoints (r & Hget & Hne) _ IH]; [done|].
  simpl. rewrite Hget. simpl. by rewrite Hne.
Qed.

Lemma url_for_region_no_match (d : gmap string pyval) (region : string)
    (endpoints : list pyval) :
  default (PList []) (d !! "endpoints") = PList endpoints ->
  no_endpoint_for region endpoints ->
  url_for_region (PDict d) region = Ok PNone.
Proof.
  intros Hd Hno. unfold url_for_region. simpl. rewrite Hd. simpl.
  by apply url_for_region_loop_no_match.
Qed.

(** Resolution without an override: read_url and ingest_url raise when the
    service is absent; when the service is there and none of its endpoints
    is for the region, the loop of url_for_region ends without a return
    and they return None. *)
Lemma resolve_without_override (self : Blueflood) (region : string) :
  _read_url self = None ->
  _ingest_url self = None ->
  (read_service self = PNone ->
     read_url self region = Raise (Exception "No read service found"))
  /\ (ingest_service self = PNone ->
     ingest_url self region = Raise (Exception "No ingest service found"))
  /\ (forall d endpoints,
        read_service self = PDict d ->
        default (PList []) (d !! "endpoints") = PList endpoints ->
        no_endpoint_for region endpoints ->
        read_url self region = Ok PNone)
  /\ (forall d endpoints,
        ingest_service self = PDict d ->
        default (PList []) (d !! "endpoints") = PList endpoints ->
        no_endpoint_for region endpoints ->
        ingest_url self region = Ok PNone).
Proof.
  intros Hr Hi. unfold read_url, ingest_url. rewrite Hr, Hi.
  repeat split.
  - by intros ->.
  - by intros ->.
  - intros d endpoints -> Hd Hno. simpl. by eapply url_for_region_no_match.
  - intros d endpoints -> Hd Hno. simpl. by eapply url_for_region_no_match.
Qed.

(** ** The service catalog *)

Lemma last_named_cons (name : string) (s prior : pyval) (items : list pyval) :
  default prior (last_named name (s :: items))
  = default (if named name s then s else prior) (last_named name items).
Proof.
  unfold last_named. rewrite filter_cons.
  destruct (named name s) eqn:Hs.
  - rewrite decide_True by done.
    destruct (filter _ items) as [|x l] eqn:Hf; [done|].
    rewrite last_cons_cons.
    destruct (last (x :: l)) eqn:Hl; [done|]. by apply last_None in Hl.
  - by rewrite decide_False by done.
Qed.

Lemma named_exclusive (n : pyval) :
  py_eq_str n ingest_name = true -> py_eq_str n read_name = false.
Proof.
  destruct n as [| | |s| |]; simpl; try done.
  intros Hs. apply bool_decide_eq_true in Hs as ->. done.
Qed.

Lemma update_catalog_loop_spec (items : list pyval) (w w' : world) (r : result ()) :
  update_catalog_loop items w = (w', r) ->
  log w' = log w
  /\ same_config (client w) (client w')
  /\ _token (client w') = _token (client w)
  /\ (r = Ok tt ->
      ingest_service (client w')
        = default (ingest_service (client w)) (last_named ingest_name items)
      /\ read_service (client w')
        = default (read_service (client w)) (last_named read_name items)).
Proof.
  revert w. induction items as [|s items IH]; intros w Hrun.
  - run. injection Hrun as <- <-. by split_and!.
  - rewrite !last_named_cons. unfold named.
    simpl in Hrun. run.
    destruct (getitem s "name") as [n|e] eqn:Hn.
    + destruct (py_eq_str n ingest_name) eqn:Hi.
      * rewrite (named_exclusive n Hi).
        apply IH in Hrun as (Hlog & Hcfg & Htok & Hsvc). simpl in *.
        split; [done|]. split; [exact Hcfg|]. split; [done|]. exact Hsvc.
      * destruct (py_eq_str n read_name) eqn:Hr.
        -- apply IH in Hrun as (Hlog & Hcfg & Htok & Hsvc). simpl in *.
           split; [done|]. split; [exact Hcfg|]. split; [done|]. exact Hsvc.
        -- by apply IH in Hrun.
    + injection Hrun as <- <-. by split_and!.
Qed.


Lemma update_catalog_spec (cat : pyval) (w w' : world) (r : result ()) :
  update_catalog cat w = (w', r) ->
  log w' = log w
  /\ same_config (client w) (client w')
  /\ _token (client w') = _token (client w)
  /\ (r = Ok tt ->
      exists items, py_iter cat = Ok items
      /\ ingest_service (client w')
          = default (ingest_service (client w)) (last_named ingest_name items)
      /\ read_service (client w')
          = default (read_service (client w)) (last_named read_name items)).
Proof.
  unfold update_catalog. run. destruct (py_iter cat) as [items|e].
  - intros Hrun. apply update_catalog_loop_spec in Hrun as (? & ? & ? & Hsvc).
    split_and!; try done. intros Hr. exists items. split; [done|]. by apply Hsvc.
  - intros [= <- <-]. by split_and!.
Qed.

(** ** get_token *)

Lemma get_token_cached `{E : Externals} (w : world) :
  is_None (_token (client w)) = false ->
  get_token w = (w, Ok (_token (client w))).
Proof. intros Hc. unfold get_token. run. by rewrite Hc. Qed.

Lemma get_token_absent `{E : Externals} (w : world) :
  is_None (_token (client w)) = true ->
  get_token w =
    let w1 := {| client := client w; log := log w ++ [identity_call (client w)] |} in
    match network (log w) (identity_call (client w)) with
    | Ok resp => get_token_finish resp w1
    | Raise e => (w1, Raise e)
    end.
Proof. intros Ha. unfold get_token. run. by rewrite Ha. Qed.

Lemma get_token_finish_spec `{E : Externals} (resp : Response) (w w' : world)
    (r : result pyval) :
  get_token_finish resp w = (w', r) ->
  log w' = log w
  /\ same_config (client w) (client w')
  /\ forall t, r = Ok t ->
      _token (client w') = t
      /\ token_id resp = Ok t
      /\ exists items, catalog_items resp = Ok items
         /\ ingest_service (client w')
             = default (ingest_service (client w)) (last_named ingest_name items)
         /\ read_service (client w')
             = default (read_service (client w)) (last_named read_name items).
Proof.
  unfold get_token_finish, token_id, catalog_items. run.
  destruct (raise_for_status resp) as [[]|e]; [|by intros [= <- <-]; split_and!].
  destruct (Response_json resp) as [j|e]; simpl; [|by intros [= <- <-]; split_and!].
  destruct (getitem j "access") as [a|e]; simpl; [|by intros [= <- <-]; split_and!].
  destruct (getitem a "token") as [tk|e]; simpl; [|by intros [= <- <-]; split_and!].
  destruct (getitem tk "id") as [id|e]; simpl; [|by intros [= <- <-]; split_and!].
  destruct (getitem a "serviceCatalog") as [cat|e]; simpl;
    [|by intros [= <- <-]; split_and!].
  destruct (update_catalog cat _) as [w2 [[]|e]] eqn:Hcat;
    apply update_catalog_spec in Hcat as (Hlog & Hcfg & Htok & Hsvc); simpl in *;
    intros [= <- <-]; split_and!; try done.
  intros t [= <-]. rewrite Htok. split; [done|]. split; [done|]. by apply Hsvc.
Qed.


Lemma identity_exchanges_app (l l' : list call) :
  identity_exchanges (l ++ l') = (identity_exchanges l + identity_exchanges l')%nat.
Proof. unfold identity_exchanges. by rewrite filter_app, length_app. Qed.

Lemma data_sends_app (l l' : list call) :
  data_sends (l ++ l') = (data_sends l + data_sends l')%nat.
Proof. unfold data_sends. by rewrite filter_app, length_app. Qed.

Lemma get_token_absent_spec `{E : Externals} (w w' : world) (r : result pyval) :
  is_None (_token (client w)) = true ->
  get_token w = (w', r) ->
  log w' = log w ++ [identity_call (client w)]
  /\ same_config (client w) (client w')
  /\ forall t, r = Ok t ->
      exists resp, network (log w) (identity_call (client w)) = Ok resp
      /\ _token (client w') = t
      /\ token_id resp = Ok t
      /\ exists items, catalog_items resp = Ok items
         /\ ingest_service (client w')
             = default (ingest_service (client w)) (last_named ingest_name items)
         /\ read_service (client w')
             = default (read_service (client w)) (last_named read_name items).
Proof.
  intros Ha. rewrite (get_token_absent w Ha). simpl.
  destruct (network _ _) as [resp|e].
  - intros Hfin. apply get_token_finish_spec in Hfin as (Hlog & Hcfg & Hok).
    simpl in *. split_and!; try done.
    intros t Ht. exists resp. split; [done|]. by apply Hok.
  - intros [= <- <-]. simpl. by split_and!.
Qed.

Lemma get_token_log `{E : Externals} (w w' : world) (r : result pyval) :
  get_token w = (w', r) ->
  log w' = log w ++
    (if is_None (_token (client w)) then [identity_call (client w)] else []).
Proof.
  destruct (is_None (_token (client w))) eqn:Ht.
  - intros Hrun. by apply get_token_absent_spec in Hrun as (? & _).
  - rewrite (get_token_cached w Ht). intros [= <- _]. by rewrite app_nil_r.
Qed.

Lemma get_token_data_sends `{E : Externals} (w w' : world) (r : result pyval) :
  get_token w = (w', r) -> data_sends (log w') = data_sends (log w).
Proof.
  intros Hrun. rewrite (get_token_log _ _ _ Hrun), data_sends_app.
  destruct (is_None _); [|change (data_sends []) with 0%nat; lia].
  change (data_sends [identity_call (client w)]) with 0%nat. lia.
Qed.

Lemma get_token_stores `{E : Externals} (w w' : world) (t : pyval) :
  get_token w = (w', Ok t) -> _token (client w') = t.
Proof.
  destruct (is_None (_token (client w))) eqn:Ht.
  - intros Hrun. apply get_token_absent_spec in Hrun as (_ & _ & Hok); [|done].
    by destruct (Hok t eq_refl) as (? & ? & ? & _).
  - rewrite (get_token_cached w Ht). by intros [= <- <-].
Qed.

(** C3: with a token cached, get_token returns it and makes no call; so
    of two calls in a row that start without a token, the first makes the
    one identity exchange and the second returns the same token. *)
Theorem get_token_caches `{E : Externals} (wc w w1 : world) (t : pyval) :
  is_None (_token (client wc)) = false ->
  is_None (_token (client w)) = true ->
  get_token w = (w1, Ok t) ->
  is_None t = false ->
  get_token wc = (wc, Ok (_token (client wc)))
  /\ get_token w1 = (w1, Ok t)
  /\ identity_exchanges (log w1) = S (identity_exchanges (log w)).
Proof.
  intros Hc Ha Hrun Ht. split; [by apply get_token_cached|].
  pose proof (get_token_stores _ _ _ Hrun) as Hstored.
  split.
  - rewrite get_token_cached; rewrite Hstored; done.
  - apply get_token_absent_spec in Hrun as (-> & _); [|done].
    rewrite identity_exchanges_app.
    change (identity_exchanges [identity_call (client w)]) with 1%nat. lia.
Qed.

(** C4, as the code has it: a successful identity exchange replaces a
    stored service by the last entry of its name in the catalog of the
    response, and keeps the service stored before when the response has no
    entry of that name. *)
Theorem identity_exchange_updates_catalog `{E : Externals} (w w' : world) (t : pyval) :
  is_None (_token (client w)) = true ->
  get_token w = (w', Ok t) ->
  exists resp items,
    network (log w) (identity_call (client w)) = Ok resp
    /\ catalog_items resp = Ok items
    /\ ingest_service (client w')
        = default (ingest_service (client w)) (last_named ingest_name items)
    /\ read_service (client w')
        = default (read_service (client w)) (last_named read_name items).
Proof.
  intros Ha Hrun. apply get_token_absent_spec in Hrun as (_ & _ & Hok); [|done].
  destruct (Hok t eq_refl) as (resp & Hnet & _ & _ & items & Hitems & Hi & Hr).
  by exists resp, items.
Qed.

(** C5, as the code has it: construction sets the token absent and then
    calls get_token: it makes exactly one identity exchange, and the
    client it returns holds the token id of that response. *)
Theorem construction_authenticates `{E : Externals} (auth_url : option string)
    (apikey username : pyval) (region : string)
    (ingest_url read_url : option string) (w w' : world) (r : result ()) :
  let self := initial_attributes auth_url apikey username region ingest_url read_url in
  Blueflood__init__ auth_url apikey username region ingest_url read_url w = (w', r) ->
  _token self = PNone
  /\ log w' = log w ++ [identity_call self]
  /\ identity_exchanges (log w') = S (identity_exchanges (log w))
  /\ (r = Ok tt ->
      exists resp, network (log w) (identity_call self) = Ok resp
      /\ token_id resp = Ok (_token (client w'))).
Proof.
  intros self. unfold Blueflood__init__. run. fold self.
  destruct (get_token _) as [w1 r1] eqn:Hrun.
  apply get_token_absent_spec in Hrun as (Hlog & _ & Hok); [|done]. simpl in *.
  intros Hinit. split; [done|].
  assert (w' = w1) as -> by (by destruct r1; injection Hinit).
  split; [done|]. split.
  { rewrite Hlog, identity_exchanges_app.
    change (identity_exchanges [identity_call self]) with 1%nat. lia. }
  intros ->. destruct r1 as [t|e]; [|done].
  destruct (Hok t eq_refl) as (resp & Hnet & Htok & Hid & _).
  exists resp. by rewrite Htok.
Qed.


(** ** request *)

Lemma request_split `{E : Externals} url method data headers params (w : world) :
  request url method data headers params w =
    match request_send url method data headers params w with
    | (w', Ok resp) => (w', request_finish resp)
    | (w', Raise e) => (w', Raise e)
    end.
Proof.
  unfold request, request_send, request_finish. run.
  destruct (get_token w) as [w1 [token|e]]; [|done].
  destruct (network (log w1) _) as [resp|e]; [|done].
  case_bool_decide.
  - destruct (get_token _) as [w3 [token'|e]]; [|done]. simpl.
    destruct (network (log w3) _) as [resp'|e]; [|done].
    destruct (raise_for_status resp') as [[]|e]; [|done].
    by destruct (json_loads (text resp')).
  - destruct (raise_for_status resp) as [[]|e]; [|done].
    by destruct (json_loads (text resp)).
Qed.

Lemma request_send_first `{E : Externals} url method data headers params
    (w w1 : world) (token : pyval) :
  get_token w = (w1, Ok token) ->
  let first := DataCall method url (request_kwargs token data headers params) in
  let w2 := {| client := client w1; log := log w1 ++ [first] |} in
  request_send url method data headers params w =
    match network (log w1) first with
    | Raise e => (w2, Raise e)
    | Ok resp =>
        if bool_decide (status_code resp = 401) then
          match get_token {| client := invalidate_token (client w1); log := log w2 |} with
          | (w3, Ok token') =>
              let kw := request_kwargs token data headers params in
              let replay := DataCall method url
                (set_headers (<["X-Auth-Token" := token']> (kw_headers kw)) kw) in
              ({| client := client w3; log := log w3 ++ [replay] |},
               network (log w3) replay)
          | (w3, Raise e) => (w3, Raise e)
          end
        else (w2, Ok resp)
    end.
Proof.
  intros Htok. unfold request_send. run. rewrite Htok.
  destruct (network (log w1) _) as [resp|e]; [|done].
  case_bool_decide; [|done].
  by destruct (get_token _) as [w3 [token'|e]].
Qed.

Lemma request_data_sends `{E : Externals} url method data headers params
    (w w' : world) (r : result pyval) :
  request url method data headers params w = (w', r) ->
  (data_sends (log w') <= data_sends (log w) + 2)%nat.
Proof.
  rewrite request_split.
  destruct (get_token w) as [w1 [token|e]] eqn:Htok.
  - rewrite (request_send_first _ _ _ _ _ _ _ _ Htok). simpl.
    apply get_token_data_sends in Htok.
    destruct (network (log w1) _) as [resp|e].
    + case_bool_decide.
      * destruct (get_token _) as [w3 [token'|e]] eqn:Htok'; simpl;
          apply get_token_data_sends in Htok'; simpl in Htok';
          rewrite data_sends_app in Htok'.
        -- destruct (network (log w3) _); intros [= <- _]; simpl;
             rewrite data_sends_app; unfold data_sends in *; simpl in *; lia.
        -- intros [= <- _]. unfold data_sends in *; simpl in *; lia.
      * intros [= <- _]. simpl. rewrite data_sends_app.
        unfold data_sends in *; simpl in *; lia.
    + intros [= <- _]. simpl. rewrite data_sends_app.
      unfold data_sends in *; simpl in *; lia.
  - unfold request_send. run. rewrite Htok. intros [= <- _].
    apply get_token_data_sends in Htok. lia.
Qed.

(** C9: when the response request ends with, the first or the replayed
    one, has a success status, request returns the decoded body when the
    body is JSON and None when it is not, the empty body (which the
    decoder refuses) included; it does not raise. *)
Theorem request_decodes_body `{E : Externals} url method data headers params
    (w w' : world) (resp : Response) :
  json_loads "" = None ->
  request_send url method data headers params w = (w', Ok resp) ->
  raise_for_status resp = Ok tt ->
  match json_loads (text resp) with
  | Some v => request url method data headers params w = (w', Ok v)
  | None => request url method data headers params w = (w', Ok PNone)
  end
  /\ (text resp = "" -> request url method data headers params w = (w', Ok PNone)).
Proof.
  intros Hempty Hsend Hok. rewrite request_split, Hsend.
  unfold request_finish. rewrite Hok. simpl. split.
  - by destruct (json_loads (text resp)).
  - intros ->. by rewrite Hempty.
Qed.

(** C1: when the first data-plane response is a 401, request clears the
    token, gets a new one by an identity exchange, and sends the same
    call once more with the new token in its X-Auth-Token header; the call
    ends with that second response, so an error status there, 401
    included, raises HTTPError and nothing more is sent.  No call of
    request makes more than two data-plane sends. *)
Theorem request_reauthenticates_once `{E : Externals} url method data headers params
    (w w1 w3 : world) (token token' : pyval) (resp : Response) :
  let kw := request_kwargs token data headers params in
  let first := DataCall method url kw in
  let w2 := {| client := invalidate_token (client w1); log := log w1 ++ [first] |} in
  let kw' := set_headers (<["X-Auth-Token" := token']> (kw_headers kw)) kw in
  let replay := DataCall method url kw' in
  let w4 := {| client := client w3; log := log w3 ++ [replay] |} in
  get_token w = (w1, Ok token) ->
  network (log w1) first = Ok resp ->
  status_code resp = 401 ->
  get_token w2 = (w3, Ok token') ->
  _token (client w2) = PNone
  /\ log w3 = log w2 ++ [identity_call (client w2)]
  /\ kw_headers kw' !! "X-Auth-Token" = Some token'
  /\ request url method data headers params w =
       (w4, match network (log w3) replay with
            | Ok resp' => request_finish resp'
            | Raise e => Raise e
            end)
  /\ (forall resp', network (log w3) replay = Ok resp' ->
        400 <= status_code resp' < 600 ->
        request url method data headers params w =
          (w4, Raise (HTTPError (status_code resp') (text resp'))))
  /\ data_sends (log w4) = (data_sends (log w) + 2)%nat
  /\ (forall (wa wb : world) (rb : result pyval),
        request url method data headers params wa = (wb, rb) ->
        (data_sends (log wb) <= data_sends (log wa) + 2)%nat).
Proof.
  intros kw first w2 kw' replay w4 Htok Hnet H401 Htok'.
  assert (request url method data headers params w =
          (w4, match network (log w3) replay with
               | Ok resp' => request_finish resp'
               | Raise e => Raise e
               end)) as Hreq.
  { rewrite request_split, (request_send_first _ _ _ _ _ _ _ _ Htok). simpl.
    fold kw first. rewrite Hnet. rewrite bool_decide_eq_true_2 by done.
    fold w2. rewrite Htok'. fold kw' replay. by destruct (network (log w3) replay). }
  split; [done|].
  split; [by apply get_token_absent_spec in Htok' as (? & _)|].
  split; [by apply lookup_insert_eq|].
  split; [done|].
  split.
  { intros resp' Hnet' Herr. rewrite Hreq, Hnet'. unfold request_finish, raise_for_status.
    by rewrite bool_decide_eq_true_2. }
  split.
  { apply get_token_data_sends in Htok, Htok'. simpl in *.
    rewrite data_sends_app, Htok', data_sends_app, Htok.
    unfold data_sends; simpl; lia. }
  intros wa wb rb. apply request_data_sends.
Qed.

(** ** Closed examples *)

(** A client with a read override only resolves reads to it, and one with
    an ingest override only resolves ingests to it; neither has a
    catalog. *)
Lemma override_precedence_witness :
  read_url
    (initial_attributes None (PStr "key") (PStr "user") "IAD"
       None (Some "https://read.example/v2.0/1")) "ORD"
  = Ok (PStr "https://read.example/v2.0/1")
  /\ ingest_url
       (initial_attributes None (PStr "key") (PStr "user") "IAD"
          (Some "https://ingest.example/v2.0/1") None) "ORD"
     = Ok (PStr "https://ingest.example/v2.0/1").
Proof.
  split.
  - apply (proj1 (override_precedence
                    (initial_attributes None (PStr "key") (PStr "user") "IAD"
                       None (Some "https://read.example/v2.0/1")) "ORD")
                 "https://read.example/v2.0/1" eq_refl).
  - apply (proj2 (override_precedence
                    (initial_attributes None (PStr "key") (PStr "user") "IAD"
                       (Some "https://ingest.example/v2.0/1") None) "ORD")
                 "https://ingest.example/v2.0/1" eq_refl).
Defined.

(** C2: without an override, resolution for a region that no endpoint of
    the service has should raise, as it does when the service is absent.
    On a client whose two services only have an endpoint in ORD, read_url
    and ingest_url for IAD return None instead. *)
Theorem resolve_unmatched_region_returns_None :
  _read_url Sample.ord_only = None
  /\ _ingest_url Sample.ord_only = None
  /\ is_None (read_service Sample.ord_only) = false
  /\ is_None (ingest_service Sample.ord_only) = false
  /\ no_endpoint_for "IAD" [Sample.ord_endpoint]
  /\ read_url Sample.ord_only "IAD" = Ok PNone
  /\ ingest_url Sample.ord_only "IAD" = Ok PNone.
Proof.
  split_and!; [reflexivity|reflexivity|reflexivity|reflexivity| |
               vm_compute; reflexivity|vm_compute; reflexivity].
  constructor; [|constructor]. exists (PStr "ORD"). split; vm_compute; reflexivity.
Qed.

(** Resolution on a client without services, and on clients whose service
    only has an endpoint in ORD. *)
Lemma resolve_without_override_witness :
  read_url Sample.fresh "IAD" = Raise (Exception "No read service found")
  /\ ingest_url Sample.fresh "IAD" = Raise (Exception "No ingest service found")
  /\ read_url (set_read_service (Sample.service "cloudMetrics" [Sample.ord_endpoint]) Sample.fresh) "IAD"
     = Ok PNone
  /\ ingest_url (set_ingest_service (Sample.service "cloudMetricsIngest" [Sample.ord_endpoint]) Sample.fresh) "IAD"
     = Ok PNone.
Proof.
  assert (Hno : no_endpoint_for "IAD" [Sample.ord_endpoint]).
  { constructor; [|constructor]. exists (PStr "ORD"). split; vm_compute; reflexivity. }
  destruct (resolve_without_override Sample.fresh "IAD" eq_refl eq_refl)
    as (Hr & Hi & _ & _).
  destruct (resolve_without_override
              (set_read_service (Sample.service "cloudMetrics" [Sample.ord_endpoint]) Sample.fresh)
              "IAD" eq_refl eq_refl) as (_ & _ & Hr' & _).
  destruct (resolve_without_override
              (set_ingest_service (Sample.service "cloudMetricsIngest" [Sample.ord_endpoint]) Sample.fresh)
              "IAD" eq_refl eq_refl) as (_ & _ & _ & Hi').
  split_and!.
  - apply Hr. reflexivity.
  - apply Hi. reflexivity.
  - eapply Hr'; [reflexivity|vm_compute; reflexivity|exact Hno].
  - eapply Hi'; [reflexivity|vm_compute; reflexivity|exact Hno].
Defined.

(** Two calls of get_token from a fresh client: one identity exchange, the
    same token twice. *)
Lemma get_token_caches_witness :
  is_None (_token (client Sample.start)) = true
  /\ get_token (E := Sample.rejecting) Sample.start
     = (Sample.authenticated Sample.rejecting, Ok (PStr "tok0"))
  /\ get_token (E := Sample.rejecting) (Sample.authenticated Sample.rejecting)
     = (Sample.authenticated Sample.rejecting, Ok (PStr "tok0"))
  /\ identity_exchanges (log (Sample.authenticated Sample.rejecting)) = 1%nat.
Proof.
  assert (Hrun : get_token (E := Sample.rejecting) Sample.start
                 = (Sample.authenticated Sample.rejecting, Ok (PStr "tok0")))
    by (vm_compute; reflexivity).
  assert (Hc : is_None (_token (client (Sample.authenticated Sample.rejecting))) = false)
    by (vm_compute; reflexivity).
  destruct (get_token_caches (E := Sample.rejecting)
              (Sample.authenticated Sample.rejecting) Sample.start
              (Sample.authenticated Sample.rejecting) (PStr "tok0")
              Hc eq_refl Hrun eq_refl) as (_ & H2 & H3).
  split_and!; [reflexivity|exact Hrun|exact H2|exact H3].
Defined.

(** After a second exchange whose response has an empty catalog, the two
    services of the first exchange are still stored. *)
Lemma catalog_kept_counterexample :
  is_None (_token (client (Sample.expired Sample.rejecting))) = true
  /\ get_token (E := Sample.rejecting) (Sample.expired Sample.rejecting)
     = ((get_token (E := Sample.rejecting) (Sample.expired Sample.rejecting)).1,
        Ok (PStr "tok1"))
  /\ network (Externals := Sample.rejecting)
       (log (Sample.expired Sample.rejecting))
       (identity_call (E := Sample.rejecting) (client (Sample.expired Sample.rejecting)))
     = Ok {| status_code := 200; text := Sample.access_body "tok1" [] |}
  /\ catalog_items (E := Sample.rejecting)
       {| status_code := 200; text := Sample.access_body "tok1" [] |} = Ok []
  /\ read_service
       (client (get_token (E := Sample.rejecting) (Sample.expired Sample.rejecting)).1)
     = Sample.service "cloudMetrics" [Sample.iad_endpoint]
  /\ ingest_service
       (client (get_token (E := Sample.rejecting) (Sample.expired Sample.rejecting)).1)
     = Sample.service "cloudMetricsIngest" [Sample.iad_endpoint].
Proof.
  split; [vm_compute; reflexivity|].
  split; [vm_compute; reflexivity|].
  split; [vm_compute; reflexivity|].
  split; [vm_compute; reflexivity|].
  split; vm_compute; reflexivity.
Qed.

(** The first exchange of a fresh client stores the two services of its
    response. *)
Lemma identity_exchange_updates_catalog_witness :
  exists resp items,
    network (Externals := Sample.rejecting) (log Sample.start)
      (identity_call (E := Sample.rejecting) (client Sample.start)) = Ok resp
    /\ catalog_items (E := Sample.rejecting) resp = Ok items
    /\ ingest_service (client (Sample.authenticated Sample.rejecting))
       = default PNone (last_named ingest_name items)
    /\ read_service (client (Sample.authenticated Sample.rejecting))
       = default PNone (last_named read_name items).
Proof.
  assert (Hrun : get_token (E := Sample.rejecting) Sample.start
                 = (Sample.authenticated Sample.rejecting, Ok (PStr "tok0")))
    by (vm_compute; reflexivity).
  exact (identity_exchange_updates_catalog (E := Sample.rejecting)
           Sample.start (Sample.authenticated Sample.rejecting) (PStr "tok0")
           eq_refl Hrun).
Defined.

(** Construction makes one identity exchange and returns a client that
    holds the token. *)
Lemma construction_exchanges_counterexample :
  Blueflood__init__ (E := Sample.silent) (Some "https://identity.example/v2.0/")
    (PStr "key") (PStr "user") "IAD" None None Sample.start
  = ((Blueflood__init__ (E := Sample.silent) (Some "https://identity.example/v2.0/")
        (PStr "key") (PStr "user") "IAD" None None Sample.start).1, Ok tt)
  /\ _token (client
       (Blueflood__init__ (E := Sample.silent) (Some "https://identity.example/v2.0/")
          (PStr "key") (PStr "user") "IAD" None None Sample.start).1) = PStr "tok0"
  /\ identity_exchanges (log
       (Blueflood__init__ (E := Sample.silent) (Some "https://identity.example/v2.0/")
          (PStr "key") (PStr "user") "IAD" None None Sample.start).1) = 1%nat.
Proof.
  split; [vm_compute; reflexivity|].
  split; vm_compute; reflexivity.
Qed.

(** Construction against the sample identity endpoint makes one exchange. *)
Lemma construction_authenticates_witness :
  identity_exchanges
    (log (Blueflood__init__ (E := Sample.silent) (Some "https://identity.example/v2.0/")
            (PStr "key") (PStr "user") "IAD" None None Sample.start).1) = 1%nat.
Proof.
  destruct (construction_authenticates (E := Sample.silent)
              (Some "https://identity.example/v2.0/") (PStr "key") (PStr "user")
              "IAD" None None Sample.start _ _ (surjective_pairing _))
    as (_ & _ & Hn & _).
  exact Hn.
Defined.

(** A 200 response with an empty body: request returns None. *)
Lemma request_decodes_body_witness :
  json_loads (Externals := Sample.silent) "" = None
  /\ request (E := Sample.silent) "https://read.example/v2.0/1/metrics/search"
       GET PNone None (PDict {[ "query" := PStr "*" ]}) Sample.start
     = ((request_send (E := Sample.silent) "https://read.example/v2.0/1/metrics/search"
           GET PNone None (PDict {[ "query" := PStr "*" ]}) Sample.start).1,
        Ok PNone).
Proof.
  assert (Hempty : json_loads (Externals := Sample.silent) "" = None)
    by (vm_compute; reflexivity).
  assert (Hsend : request_send (E := Sample.silent)
                    "https://read.example/v2.0/1/metrics/search"
                    GET PNone None (PDict {[ "query" := PStr "*" ]}) Sample.start
                  = ((request_send (E := Sample.silent)
                        "https://read.example/v2.0/1/metrics/search"
                        GET PNone None (PDict {[ "query" := PStr "*" ]}) Sample.start).1,
                     Ok {| status_code := 200; text := "" |}))
    by (vm_compute; reflexivity).
  destruct (request_decodes_body (E := Sample.silent) _ _ _ _ _ _ _ _
              Hempty Hsend eq_refl) as [_ Hnone].
  split; [exact Hempty|]. apply Hnone. reflexivity.
Defined.

(** Against a data plane that always answers 401, request raises
    HTTPError 401 after two sends and two identity exchanges. *)
Lemma request_reauthenticates_once_witness :
  exists w4,
    request (E := Sample.rejecting) "https://read.example/v2.0/1/metrics/search"
      GET PNone None (PDict {[ "query" := PStr "*" ]}) Sample.start
    = (w4, Raise (HTTPError 401 "Unauthorized"))
    /\ data_sends (log w4) = 2%nat
    /\ identity_exchanges (log w4) = 2%nat.
Proof.
  assert (Htok : get_token (E := Sample.rejecting) Sample.start
                 = (Sample.authenticated Sample.rejecting, Ok (PStr "tok0")))
    by (vm_compute; reflexivity).
  pose (first := DataCall GET "https://read.example/v2.0/1/metrics/search"
          (request_kwargs (E := Sample.rejecting) (PStr "tok0") PNone None
             (PDict {[ "query" := PStr "*" ]}))).
  pose (w2 := {| client := invalidate_token (client (Sample.authenticated Sample.rejecting));
                 log := log (Sample.authenticated Sample.rejecting) ++ [first] |}).
  assert (Hnet : network (Externals := Sample.rejecting)
                   (log (Sample.authenticated Sample.rejecting)) first
                 = Ok {| status_code := 401; text := "Unauthorized" |})
    by (vm_compute; reflexivity).
  assert (Htok' : get_token (E := Sample.rejecting) w2
                  = ((get_token (E := Sample.rejecting) w2).1, Ok (PStr "tok1")))
    by (vm_compute; reflexivity).
  pose proof (request_reauthenticates_once (E := Sample.rejecting)
     "https://read.example/v2.0/1/metrics/search" GET PNone None (PDict {[ "query" := PStr "*" ]})
     Sample.start (Sample.authenticated Sample.rejecting) (get_token (E := Sample.rejecting) w2).1
     (PStr "tok0") (PStr "tok1") {| status_code := 401; text := "Unauthorized" |}
              Htok Hnet eq_refl Htok') as HH.
  destruct HH as (_ & _ & _ & _ & Herr & Hsends & _).
  eexists. split; [|split].
  - apply (Herr {| status_code := 401; text := "Unauthorized" |}).
    + vm_compute; reflexivity.
    + simpl; lia.
  - vm_compute; reflexivity.
  - vm_compute; reflexivity.
Defined.

(** * Further properties of the code *)

#[local] Set Warnings "-clear-no-such-hyp".


(** ** Datapoint *)

(** X1: for a ttl_seconds that is None or an integer, the ttlInSeconds a
    datapoint stores is a non-negative integer, and a positive ttl_seconds
    is stored as given. *)
Theorem Datapoint_ttl_nonnegative now name value collection_time ttl_seconds unit :
  exists t : Z,
    ttlInSeconds (Datapoint now name value collection_time ttl_seconds unit)
      = Some (PInt t)
    /\ 0 <= t
    /\ forall z, ttl_seconds = Some z -> 0 < z -> t = z.
Proof.
  rewrite Datapoint_ttlInSeconds. eexists. split; [done|]. split; [lia|].
  intros z -> Hz. unfold not_ttl. case_bool_decide; lia.
Qed.

(** X2: a datapoint has the keys metricValue, metricName, collectionTime
    and ttlInSeconds, and the key unit exactly when a non-empty unit is
    given; collectionTime is the time given, or the clock when none is. *)
Theorem Datapoint_keys now name value collection_time ttl_seconds unit :
  let dp := Datapoint now name value collection_time ttl_seconds unit in
  dom dp = ({[ "metricValue"; "metricName"; "collectionTime"; "ttlInSeconds" ]} : gset string)
           ∪ (match unit with
              | Some u => if bool_decide (u = "") then ∅ else {[ "unit" ]}
              | None => ∅
              end)
  /\ dp !! "metricValue" = Some value
  /\ dp !! "metricName" = Some (PStr name)
  /\ dp !! "collectionTime" = Some (PInt (default now collection_time)).
Proof.
  unfold Datapoint. destruct unit as [u|]; [case_bool_decide|];
    (split; [rewrite ?dom_insert_L, dom_empty_L; set_solver|]);
    destruct collection_time; by simplify_map_eq.
Qed.

(** ** selects and read_params *)

Lemma filter_selected_ext (k1 k2 : gmap string pyval) (l : list string) :
  (forall s, s ∈ l -> selected k1 s = selected k2 s) ->
  filter (fun s => selected k1 s = true) l = filter (fun s => selected k2 s = true) l.
Proof.
  induction l as [|x l IH]; intros Hl; [done|].
  rewrite !filter_cons, (Hl x) by set_solver.
  rewrite IH by (intros s Hs; apply Hl; set_solver). done.
Qed.

Lemma selected_insert_ne kwargs k v s :
  k <> s -> selected (<[k := v]> kwargs) s = selected kwargs s.
Proof. intros Hne. unfold selected. by rewrite lookup_insert_ne. Qed.

(** X3: selects only looks at the five selectables: a keyword argument of
    another name does not change its result. *)
Theorem selects_ignores_other_keys (kwargs : gmap string pyval) (k : string) (v : pyval) :
  k ∉ selectables ->
  selects (<[k := v]> kwargs) = selects kwargs.
Proof.
  intros Hk. unfold selects. f_equal.
  apply filter_selected_ext. intros s Hs.
  apply selected_insert_ne. by intros ->.
Qed.

Lemma str_join_empty (sep : string) (l : list string) :
  Forall (fun s => s <> "") l -> str_join sep l = "" -> l = [].
Proof.
  destruct l as [|x l]; [done|]. intros Hne Hj. exfalso.
  apply Forall_cons in Hne as [Hx _]. simpl in Hj.
  destruct l; [done|]. by destruct x.
Qed.

Lemma selectables_nonempty (kwargs : gmap string pyval) :
  Forall (fun s => s <> "") (filter (fun s => selected kwargs s = true) selectables).
Proof.
  apply Forall_forall. intros s Hs%list_elem_of_filter. destruct Hs as [_ Hs].
  unfold selectables in Hs.
  repeat (apply elem_of_cons in Hs as [->|Hs]; [done|]).
  by apply elem_of_nil in Hs.
Qed.

Lemma filter_selected_nil (kwargs : gmap string pyval) (l : list string) :
  filter (fun s => selected kwargs s = true) l = []
  <-> forallb (fun s => negb (selected kwargs s)) l = true.
Proof.
  induction l as [|x l IH]; [done|].
  rewrite filter_cons. simpl. destruct (selected kwargs x) eqn:Hx.
  - rewrite decide_True by done. simpl. split; done.
  - rewrite decide_False by done. simpl. done.
Qed.

Lemma selects_eq_empty (kwargs : gmap string pyval) :
  selects kwargs = ""
  <-> forallb (fun s => negb (selected kwargs s)) selectables = true.
Proof.
  split.
  - intros Hs. apply str_join_empty in Hs; [|apply selectables_nonempty].
    by apply filter_selected_nil in Hs.
  - intros Hall. unfold selects. apply filter_selected_nil in Hall. by rewrite Hall.
Qed.

(** X4: selects returns the empty string exactly when none of the five
    selectables is a keyword argument with a true value; an argument that
    is there with a false value counts as absent. *)
Theorem selects_empty (kwargs : gmap string pyval) :
  bool_decide (selects kwargs = "")
  = forallb (fun s => negb (selected kwargs s)) selectables.
Proof.
  destruct (forallb _ selectables) eqn:Hall.
  - apply bool_decide_eq_true. by apply selects_eq_empty.
  - apply bool_decide_eq_false. intros Hs%selects_eq_empty. congruence.
Qed.

(** X5: read_params always has from and to; it has resolution when one is
    given, and points only when no resolution is given: never both. *)
Theorem read_params_keys (start stop points resolution : pyval) :
  let params := read_params start stop points resolution in
  params !! "from" = Some start
  /\ params !! "to" = Some stop
  /\ params !! "resolution" = (if truthy resolution then Some resolution else None)
  /\ params !! "points" =
       (if truthy resolution then None
        else if truthy points then Some points else None)
  /\ dom params ⊆ ({[ "from"; "to"; "resolution"; "points" ]} : gset string).
Proof.
  unfold read_params.
  destruct (truthy resolution), (truthy points); simpl;
    (split_and!; [by simplify_map_eq..|]);
    rewrite ?dom_insert_L, dom_empty_L; set_solver.
Qed.



(** ** url_for_region *)

Lemma url_for_region_loop_first (region : string) (pre post : list pyval) (e : pyval) :
  no_endpoint_for region pre ->
  endpoint_for region e ->
  url_for_region_loop (pre ++ e :: post) region = getitem e "publicURL".
Proof.
  intros Hpre (r & Hget & Heq).
  induction Hpre as [|x pre (rx & Hx & Hne) _ IH]; simpl.
  - rewrite Hget. simpl. by rewrite Heq.
  - rewrite Hx. simpl. by rewrite Hne.
Qed.

(** X7: url_for_region answers with the first endpoint for the region: it
    returns that endpoint's publicURL, whatever comes after it in the
    list, and raises KeyError when that endpoint has no publicURL. *)
Theorem url_for_region_first_match (d : gmap string pyval) (region : string)
    (pre post : list pyval) (e : pyval) :
  d !! "endpoints" = Some (PList (pre ++ e :: post)) ->
  no_endpoint_for region pre ->
  endpoint_for region e ->
  url_for_region (PDict d) region = getitem e "publicURL"
  /\ (forall de, e = PDict de -> de !! "publicURL" = None ->
        url_for_region (PDict d) region = Raise (KeyError "publicURL")).
Proof.
  intros Hd Hpre He.
  assert (url_for_region (PDict d) region = getitem e "publicURL") as Hurl.
  { unfold url_for_region. simpl. rewrite Hd. simpl.
    by apply url_for_region_loop_first. }
  split; [done|]. intros de -> Hnone. rewrite Hurl. simpl. by rewrite Hnone.
Qed.

Lemma url_for_region_loop_not_a_dict (region : string) (pre post : list pyval) (e : pyval) :
  no_endpoint_for region pre ->
  py_get e "region" PNone = Raise AttributeError ->
  url_for_region_loop (pre ++ e :: post) region = Raise AttributeError.
Proof.
  intros Hpre He.
  induction Hpre as [|x pre (rx & Hx & Hne) _ IH]; simpl.
  - by rewrite He.
  - rewrite Hx. simpl. by rewrite Hne.
Qed.

(** X8: a service without an endpoints key is read as one with no
    endpoints, so url_for_region returns None; an endpoint that is not a
    dict, met before any match, makes it raise AttributeError. *)
Theorem url_for_region_malformed (d : gmap string pyval) (region : string)
    (pre post : list pyval) (e : pyval) :
  (d !! "endpoints" = None -> url_for_region (PDict d) region = Ok PNone)
  /\ (d !! "endpoints" = Some (PList (pre ++ e :: post)) ->
      no_endpoint_for region pre ->
      py_get e "region" PNone = Raise AttributeError ->
      url_for_region (PDict d) region = Raise AttributeError).
Proof.
  split.
  - intros Hd. unfold url_for_region. simpl. by rewrite Hd.
  - intros Hd Hpre He. unfold url_for_region. simpl. rewrite Hd. simpl.
    by apply url_for_region_loop_not_a_dict.
Qed.

(** ** update_catalog *)

Lemma update_catalog_loop_app (l1 l2 : list pyval) (w : world) :
  update_catalog_loop (l1 ++ l2) w =
    match update_catalog_loop l1 w with
    | (w1, Ok _) => update_catalog_loop l2 w1
    | (w1, Raise e) => (w1, Raise e)
    end.
Proof.
  revert w. induction l1 as [|s l1 IH]; intros w; [done|].
  simpl. run. destruct (getitem s "name") as [n|e]; [|done].
  destruct (py_eq_str n ingest_name); [apply IH|].
  destruct (py_eq_str n read_name); apply IH.
Qed.

(** X9: an entry that cannot be read stops update_catalog where it is:
    the exception is raised, the entries before it have been applied and
    those after it are not looked at. *)
Theorem update_catalog_stops_at_bad_entry (l1 l2 : list pyval) (bad : pyval)
    (w w1 : world) (e : exn) :
  update_catalog_loop l1 w = (w1, Ok tt) ->
  getitem bad "name" = Raise e ->
  update_catalog (PList (l1 ++ bad :: l2)) w = (w1, Raise e)
  /\ ingest_service (client w1)
       = default (ingest_service (client w)) (last_named ingest_name l1)
  /\ read_service (client w1)
       = default (read_service (client w)) (last_named read_name l1).
Proof.
  intros Hl1 Hbad. split.
  - unfold update_catalog. run. rewrite update_catalog_loop_app, Hl1.
    simpl. run. by rewrite Hbad.
  - apply update_catalog_loop_spec in Hl1 as (_ & _ & _ & Hsvc). by apply Hsvc.
Qed.

(** X10: entries of other names are passed over: a catalog that only has
    such entries leaves the client as it is. *)
Theorem update_catalog_other_entries (items : list pyval) (w : world) :
  Forall other_entry items ->
  update_catalog (PList items) w = (w, Ok tt).
Proof.
  intros Hitems. unfold update_catalog. run.
  induction Hitems as [|s items (n & Hn & Hi & Hr) _ IH]; [done|].
  simpl. run. by rewrite Hn, Hi, Hr.
Qed.

(** X11: a serviceCatalog that is not a list: None, a boolean or a number
    raise TypeError; so do a dict and a string, which are iterated over
    their keys and characters, unless they are empty.  The client is
    unchanged in every case. *)
Theorem update_catalog_not_a_list (cat : pyval) (w : world) :
  match cat with
  | PList _ => True
  | PDict _ | PStr _ =>
      update_catalog cat w
      = (w, if truthy cat then Raise TypeError else Ok tt)
  | _ => update_catalog cat w = (w, Raise TypeError)
  end.
Proof.
  destruct cat as [| | |s| |d]; try done; unfold update_catalog; run.
  - destruct s as [|a s]; [done|]. simpl. by run.
  - destruct (map_to_list d) as [|[k v] l]; [done|]. simpl. by run.
Qed.

(** ** get_token: failures and the frame *)

(** X12: when the identity exchange fails before a token id is read (an
    error status, a body that is not JSON, a missing access, token or id),
    get_token raises that exception and the client is as before: no token
    is cached and the services are untouched.  The call is in the log. *)
Theorem get_token_failure_keeps_client `{E : Externals} (w : world)
    (resp : Response) (e : exn) :
  is_None (_token (client w)) = true ->
  network (log w) (identity_call (client w)) = Ok resp ->
  (raise_for_status resp;; token_id resp) = Raise e ->
  get_token w
  = ({| client := client w; log := log w ++ [identity_call (client w)] |}, Raise e)
  /\ (400 <= status_code resp < 600 ->
      e = HTTPError (status_code resp) (text resp)).
Proof.
  intros Ha Hnet Hfail. rewrite (get_token_absent w Ha). simpl. rewrite Hnet.
  unfold get_token_finish, token_id, raise_for_status in *. run.
  case_bool_decide as Hst.
  - injection Hfail as <-. split; [done|]. done.
  - split; [|intros; lia]. simpl in Hfail.
    destruct (Response_json resp) as [j|e1]; simpl in *; [|congruence].
    destruct (getitem j "access") as [a|e1]; simpl in *; [|congruence].
    destruct (getitem a "token") as [tk|e1]; simpl in *; [|congruence].
    destruct (getitem tk "id") as [id|e1]; simpl in *; congruence.
Qed.

(** X13: get_token stores the token before it reads the catalog: when the
    response has a token id but its serviceCatalog is missing or cannot be
    iterated, get_token raises and yet the token is cached and the services
    are as before, so the next call returns that token with no exchange. *)
Theorem get_token_caches_before_catalog `{E : Externals} (w : world)
    (resp : Response) (t : pyval) (e : exn) :
  is_None (_token (client w)) = true ->
  network (log w) (identity_call (client w)) = Ok resp ->
  raise_for_status resp = Ok tt ->
  token_id resp = Ok t ->
  catalog_items resp = Raise e ->
  let w' := {| client := set_token t (client w);
               log := log w ++ [identity_call (client w)] |} in
  get_token w = (w', Raise e)
  /\ (is_None t = false -> get_token w' = (w', Ok t)).
Proof.
  intros Ha Hnet Hst Htok Hcat w'. split.
  - rewrite (get_token_absent w Ha). simpl. rewrite Hnet.
    unfold get_token_finish, token_id, catalog_items, update_catalog in *. run.
    rewrite Hst. simpl.
    destruct (Response_json resp) as [j|e1]; simpl in *; [|congruence].
    destruct (getitem j "access") as [a|e1]; simpl in *; [|congruence].
    destruct (getitem a "token") as [tk|e1]; simpl in *; [|congruence].
    destruct (getitem tk "id") as [id|e1]; simpl in *; [|congruence].
    injection Htok as ->. subst w'.
    destruct (getitem a "serviceCatalog") as [cat|e1]; simpl in *; [|by simplify_eq].
    destruct (py_iter cat) as [items|e1]; simpl in *; by simplify_eq.
  - intros Ht. by apply get_token_cached.
Qed.

(** X14: after invalidate_token the next get_token makes an identity
    exchange, whatever token was cached before. *)
Theorem invalidate_forces_exchange `{E : Externals} (self : Blueflood) (l : list call) :
  let w' := (get_token {| client := invalidate_token self; log := l |}).1 in
  log w' = l ++ [identity_call self]
  /\ identity_exchanges (log w') = S (identity_exchanges l).
Proof.
  intros w'.
  destruct (get_token_absent_spec
              {| client := invalidate_token self; log := l |} w'
              (get_token {| client := invalidate_token self; log := l |}).2
              eq_refl (surjective_pairing _)) as (Hlog & _).
  simpl in Hlog. change (identity_call (invalidate_token self)) with (identity_call self) in Hlog.
  split; [done|]. rewrite Hlog, identity_exchanges_app.
  change (identity_exchanges [identity_call self]) with 1%nat. lia.
Qed.

Lemma same_config_trans (a b c : Blueflood) :
  same_config a b -> same_config b c -> same_config a c.
Proof.
  unfold same_config. intros (?&?&?&?&?&?) (?&?&?&?&?&?). split_and!; congruence.
Qed.

Lemma get_token_same_config `{E : Externals} (w w' : world) (r : result pyval) :
  get_token w = (w', r) -> same_config (client w) (client w').
Proof.
  destruct (is_None (_token (client w))) eqn:Ht.
  - intros Hrun. by apply get_token_absent_spec in Hrun as (_ & ? & _).
  - rewrite (get_token_cached w Ht). intros [= <- _]. by split_and!.
Qed.

(** X15: neither get_token nor request changes what the constructor was
    given: the auth URL, the two overrides, the credentials and the
    region are the same afterwards, whether the call returns or raises. *)
Theorem config_is_kept `{E : Externals} url method data headers params (w : world) :
  same_config (client w) (client (get_token w).1)
  /\ same_config (client w) (client (request url method data headers params w).1).
Proof.
  split; [by eapply get_token_same_config, surjective_pairing|].
  rewrite request_split.
  destruct (get_token w) as [w1 [token|e]] eqn:Htok.
  - rewrite (request_send_first _ _ _ _ _ _ _ _ Htok). simpl.
    apply get_token_same_config in Htok.
    destruct (network (log w1) _) as [resp|e]; [|done].
    case_bool_decide; [|done].
    destruct (get_token _) as [w3 r3] eqn:Htok'.
    apply get_token_same_config in Htok'. simpl in Htok'.
    assert (same_config (client w) (client w3)) by by eapply same_config_trans.
    destruct r3 as [token'|e]; [|done]. simpl.
    by destruct (network (log w3) _).
  - unfold request_send. run. rewrite Htok. simpl.
    by apply get_token_same_config in Htok.
Qed.

(** ** request: one send, failures, headers *)

(** X16: when the first response is not a 401, request ends with it after
    that single send: no re-authentication, no identity exchange, the
    client as get_token left it.  An error status such as 403 or 500 raises
    HTTPError at once. *)
Theorem request_without_retry `{E : Externals} url method data headers params
    (w w1 : world) (token : pyval) (resp : Response) :
  let first := DataCall method url (request_kwargs token data headers params) in
  let w2 := {| client := client w1; log := log w1 ++ [first] |} in
  get_token w = (w1, Ok token) ->
  network (log w1) first = Ok resp ->
  status_code resp <> 401 ->
  request url method data headers params w = (w2, request_finish resp)
  /\ (400 <= status_code resp < 600 ->
      request url method data headers params w
      = (w2, Raise (HTTPError (status_code resp) (text resp))))
  /\ data_sends (log w2) = S (data_sends (log w))
  /\ identity_exchanges (log w2) = identity_exchanges (log w1).
Proof.
  intros first w2 Htok Hnet Hst.
  assert (request url method data headers params w = (w2, request_finish resp)) as Hreq.
  { rewrite request_split, (request_send_first _ _ _ _ _ _ _ _ Htok). simpl.
    fold first. rewrite Hnet. by rewrite bool_decide_eq_false_2. }
  split; [done|]. split.
  { intros Herr. rewrite Hreq. unfold request_finish, raise_for_status.
    by rewrite bool_decide_eq_true_2. }
  apply get_token_data_sends in Htok. simpl.
  rewrite data_sends_app, identity_exchanges_app, Htok.
  change (data_sends [first]) with 1%nat.
  change (identity_exchanges [first]) with 0%nat. lia.
Qed.

(** X17: when get_token raises at the start of request, the exception is
    the result and nothing is sent to the data plane. *)
Theorem request_auth_failure `{E : Externals} url method data headers params
    (w w1 : world) (e : exn) :
  get_token w = (w1, Raise e) ->
  request url method data headers params w = (w1, Raise e)
  /\ data_sends (log w1) = data_sends (log w).
Proof.
  intros Htok. split; [|by eapply get_token_data_sends].
  rewrite request_split. unfold request_send. run. by rewrite Htok.
Qed.

(** X18: when the re-authentication after a 401 raises, request raises
    that exception: the call is not sent again, so there was one send. *)
Theorem request_reauth_failure `{E : Externals} url method data headers params
    (w w1 w3 : world) (token : pyval) (resp : Response) (e : exn) :
  let first := DataCall method url (request_kwargs token data headers params) in
  let w2 := {| client := invalidate_token (client w1); log := log w1 ++ [first] |} in
  get_token w = (w1, Ok token) ->
  network (log w1) first = Ok resp ->
  status_code resp = 401 ->
  get_token w2 = (w3, Raise e) ->
  request url method data headers params w = (w3, Raise e)
  /\ data_sends (log w3) = S (data_sends (log w)).
Proof.
  intros first w2 Htok Hnet H401 Htok'. split.
  - rewrite request_split, (request_send_first _ _ _ _ _ _ _ _ Htok). simpl.
    fold first. rewrite Hnet. rewrite bool_decide_eq_true_2 by done.
    fold w2. by rewrite Htok'.
  - apply get_token_data_sends in Htok, Htok'. simpl in Htok'.
    rewrite Htok', data_sends_app, Htok.
    change (data_sends [first]) with 1%nat. lia.
Qed.

(** X19: an exception of the transport on the first send is the result of
    request: no second send and no re-authentication. *)
Theorem request_transport_failure `{E : Externals} url method data headers params
    (w w1 : world) (token : pyval) (e : exn) :
  let first := DataCall method url (request_kwargs token data headers params) in
  get_token w = (w1, Ok token) ->
  network (log w1) first = Raise e ->
  request url method data headers params w
  = ({| client := client w1; log := log w1 ++ [first] |}, Raise e).
Proof.
  intros first Htok Hnet.
  rewrite request_split, (request_send_first _ _ _ _ _ _ _ _ Htok). simpl.
  fold first. by rewrite Hnet.
Qed.

Lemma request_kwargs_headers `{E : Externals} token data h params :
  kw_headers (request_kwargs token data (Some h) params)
  = h ∪ <["X-Auth-Token" := token]> base_headers.
Proof.
  unfold request_kwargs. by destruct (is_None params), (is_None data).
Qed.

(** X20: the caller's headers win over the base headers and over the
    token on the first send; on the replay after a 401 the X-Auth-Token
    header is the new token all the same, and the other headers are as on
    the first send. *)
Theorem request_header_precedence `{E : Externals} url method data params
    (h : gmap string pyval) (w w1 w3 : world) (token token' : pyval)
    (resp : Response) :
  let kw := request_kwargs token data (Some h) params in
  let kw' := set_headers (<["X-Auth-Token" := token']> (kw_headers kw)) kw in
  let w2 := {| client := invalidate_token (client w1);
               log := log w1 ++ [DataCall method url kw] |} in
  get_token w = (w1, Ok token) ->
  network (log w1) (DataCall method url kw) = Ok resp ->
  status_code resp = 401 ->
  get_token w2 = (w3, Ok token') ->
  log (request url method data (Some h) params w).1
  = log w1 ++ [DataCall method url kw; identity_call (client w1);
               DataCall method url kw']
  /\ (forall k, kw_headers kw !! k
        = match h !! k with
          | Some v => Some v
          | None => (<["X-Auth-Token" := token]> base_headers) !! k
          end)
  /\ kw_headers kw' !! "X-Auth-Token" = Some token'
  /\ (forall k, k <> "X-Auth-Token" -> kw_headers kw' !! k = kw_headers kw !! k).
Proof.
  intros kw kw' w2 Htok Hnet H401 Htok'. split.
  - rewrite request_split, (request_send_first _ _ _ _ _ _ _ _ Htok). simpl.
    fold kw. rewrite Hnet. rewrite bool_decide_eq_true_2 by done.
    fold w2. rewrite Htok'. fold kw'.
    apply get_token_absent_spec in Htok' as (Hlog & _); [|done].
    simpl in Hlog. change (identity_call (invalidate_token (client w1)))
      with (identity_call (client w1)) in Hlog.
    destruct (network (log w3) _) as [r|e]; [destruct (request_finish r)|];
      simpl; rewrite Hlog, <- !app_assoc; done.
  - split; [|split].
    + intros k. unfold kw. rewrite request_kwargs_headers.
      destruct (h !! k) eqn:Hk;
        [by erewrite lookup_union_Some_l|by rewrite lookup_union_r].
    + apply lookup_insert_eq.
    + intros k Hk. simpl. by rewrite lookup_insert_ne.
Qed.

Lemma get_token_identity_exchanges `{E : Externals} (w w' : world) (r : result pyval) :
  get_token w = (w', r) ->
  (identity_exchanges (log w') <= S (identity_exchanges (log w)))%nat.
Proof.
  intros Hrun. rewrite (get_token_log _ _ _ Hrun), identity_exchanges_app.
  destruct (is_None _).
  - change (identity_exchanges [identity_call (client w)]) with 1%nat. lia.
  - change (identity_exchanges []) with 0%nat. lia.
Qed.

(** X21: a call of request makes at most two identity exchanges: the one
    that gets a first token and the one after a 401. *)
Theorem request_identity_exchanges `{E : Externals} url method data headers params
    (w : world) :
  (identity_exchanges (log (request url method data headers params w).1)
   <= identity_exchanges (log w) + 2)%nat.
Proof.
  rewrite request_split.
  destruct (get_token w) as [w1 [token|e]] eqn:Htok.
  - rewrite (request_send_first _ _ _ _ _ _ _ _ Htok). simpl.
    apply get_token_identity_exchanges in Htok.
    assert (forall c, identity_exchanges (log w1 ++ [DataCall method url c])
                      = identity_exchanges (log w1)) as Hdata.
    { intros c. rewrite identity_exchanges_app.
      change (identity_exchanges [DataCall method url c]) with 0%nat. lia. }
    destruct (network (log w1) _) as [resp|e]; [|simpl; rewrite Hdata; lia].
    case_bool_decide; [|simpl; rewrite Hdata; lia].
    destruct (get_token _) as [w3 r3] eqn:Htok'.
    apply get_token_identity_exchanges in Htok'. simpl in Htok'.
    rewrite Hdata in Htok'.
    destruct r3 as [token'|e]; [|simpl; lia].
    assert (forall c, identity_exchanges (log w3 ++ [DataCall method url c])
                      = identity_exchanges (log w3)) as Hdata'.
    { intros c. rewrite identity_exchanges_app.
      change (identity_exchanges [DataCall method url c]) with 0%nat. lia. }
    destruct (network (log w3) _) as [r|e]; [destruct (request_finish r)|];
      simpl; rewrite Hdata'; lia.
  - unfold request_send. run. rewrite Htok. simpl.
    apply get_token_identity_exchanges in Htok. lia.
Qed.

(** ** find_metrics, ingest and get_metrics *)

(** X22: when the URL of a method cannot be resolved (no override and no
    service, or a malformed service), the method raises before anything is
    sent: the client and the log are as before, and not even a token is
    fetched.  find_metrics and get_metrics depend on read_url only, ingest
    on ingest_url only. *)
Theorem api_raises_before_any_call `{E : Externals} `{F : Formatting}
    (w : world) query start stop metrics points resolution kwargs data :
  (forall er,
     read_url (client w) "IAD" = Raise er ->
     find_metrics query w = (w, Raise er)
     /\ get_metrics start stop metrics points resolution kwargs w = (w, Raise er))
  /\ (forall ei,
     ingest_url (client w) "IAD" = Raise ei ->
     ingest data w = (w, Raise ei)).
Proof.
  split.
  - intros er Hr. unfold find_metrics, get_metrics. run. by rewrite Hr.
  - intros ei Hi. unfold ingest. run. by rewrite Hi.
Qed.

(** X23: ingest sends a list: a datapoint that is not a list is wrapped in
    a one-element list, so ingest d is ingest [d], and the body of the
    POST to <ingest url>/ingest is the dump of that list; a list is sent
    as it is. *)
Theorem ingest_wraps_single `{E : Externals} `{F : Formatting}
    (d : pyval) (base : pyval) (w : world) :
  ingest_url (client w) "IAD" = Ok base ->
  (forall l, d <> PList l) ->
  ingest d w = request (py_str base +:+ "/ingest") POST (PList [d]) None PNone w
  /\ ingest d w = ingest (PList [d]) w
  /\ (forall token,
        kw_data (request_kwargs token (PList [d]) None PNone)
        = Some (json_dumps (PList [d])))
  /\ (forall l,
        ingest (PList l) w
        = request (py_str base +:+ "/ingest") POST (PList l) None PNone w).
Proof.
  intros Hurl Hd. unfold ingest. run. rewrite Hurl.
  split_and!; try done.
  all: destruct d; try done; by destruct (Hd l).
Qed.

(** X24: the None that url resolution returns for a region without an
    endpoint is formatted into the URL.  When read_url gives None,
    find_metrics and get_metrics send their request to None/metrics/search
    and None/views; when ingest_url gives None, ingest sends its list (the
    datapoint wrapped in a list when it is not one) to None/ingest. *)
Theorem api_requests_None_url `{E : Externals} `{F : Formatting}
    (w : world) query start stop metrics points resolution kwargs data :
  (read_url (client w) "IAD" = Ok PNone ->
   find_metrics query w
   = request "None/metrics/search" GET PNone None (PDict {[ "query" := query ]}) w
   /\ get_metrics start stop metrics points resolution kwargs w
      = request "None/views" POST metrics None
          (PDict (get_metrics_params start stop points resolution kwargs)) w)
  /\ (ingest_url (client w) "IAD" = Ok PNone ->
     ingest data w
     = request "None/ingest" POST
         (match data with
          | PList _ => data
          | _ => PList [data]
          end) None PNone w).
Proof.
  split.
  - intros Hr. unfold find_metrics, get_metrics. run. by rewrite Hr.
  - intros Hi. unfold ingest. run. by rewrite Hi.
Qed.

(** ** The region attribute *)

Lemma update_catalog_loop_region (r : string) (items : list pyval) (w : world) :
  update_catalog_loop items (world_set_region r w)
  = (world_set_region r (update_catalog_loop items w).1,
     (update_catalog_loop items w).2).
Proof.
  revert w. induction items as [|s items IH]; intros w; [done|].
  simpl. run. destruct (getitem s "name") as [n|e]; [|done].
  destruct (py_eq_str n ingest_name).
  { exact (IH {| client := set_ingest_service s (client w); log := log w |}). }
  destruct (py_eq_str n read_name).
  { exact (IH {| client := set_read_service s (client w); log := log w |}). }
  exact (IH w).
Qed.

Lemma get_token_finish_region `{E : Externals} (r : string) (resp : Response) (w : world) :
  get_token_finish resp (world_set_region r w)
  = (world_set_region r (get_token_finish resp w).1, (get_token_finish resp w).2).
Proof.
  unfold get_token_finish, update_catalog. run.
  destruct (raise_for_status resp) as [[]|e]; [|done].
  destruct (Response_json resp) as [j|e]; simpl; [|done].
  destruct (getitem j "access") as [a|e]; simpl; [|done].
  destruct (getitem a "token") as [tk|e]; simpl; [|done].
  destruct (getitem tk "id") as [id|e]; simpl; [|done].
  destruct (getitem a "serviceCatalog") as [cat|e]; simpl; [|done].
  destruct (py_iter cat) as [items|e]; simpl; [|done].
  change {| client := set_token id (set_region r (client w)); log := log w |}
    with (world_set_region r {| client := set_token id (client w); log := log w |}).
  rewrite update_catalog_loop_region.
  by destruct (update_catalog_loop items _) as [w1 [[]|e]].
Qed.

Lemma get_token_region `{E : Externals} (r : string) (w : world) :
  get_token (world_set_region r w)
  = (world_set_region r (get_token w).1, (get_token w).2).
Proof.
  destruct (is_None (_token (client w))) eqn:Ht.
  - rewrite (get_token_absent (world_set_region r w)) by done.
    rewrite (get_token_absent w) by done. simpl.
    change (identity_call (set_region r (client w))) with (identity_call (client w)).
    destruct (network (log w) _) as [resp|e]; [|done].
    apply (get_token_finish_region r resp
             {| client := client w; log := log w ++ [identity_call (client w)] |}).
  - rewrite (get_token_cached (world_set_region r w)) by done.
    by rewrite (get_token_cached w).
Qed.

Lemma request_region `{E : Externals} (r : string) url method data headers params
    (w : world) :
  request url method data headers params (world_set_region r w)
  = (world_set_region r (request url method data headers params w).1,
     (request url method data headers params w).2).
Proof.
  unfold request. run. rewrite get_token_region.
  destruct (get_token w) as [w1 [token|e]]; simpl; [|done].
  destruct (network (log w1) _) as [resp|e]; [|done].
  case_bool_decide.
  - pose proof (get_token_region r
        {| client := invalidate_token (client w1);
           log := log w1 ++ [DataCall method url (request_kwargs token data headers params)] |})
      as Hre.
    match goal with
    | |- context [get_token ?x] =>
        match x with
        | context [set_region] =>
            change x with (world_set_region r
              {| client := invalidate_token (client w1);
                 log := log w1 ++ [DataCall method url
                          (request_kwargs token data headers params)] |})
        end
    end.
    rewrite Hre. clear Hre.
    destruct (get_token _) as [w3 [token'|e]]; simpl; [|done].
    destruct (network (log w3) _) as [resp'|e]; [|done].
    destruct (raise_for_status resp') as [[]|e]; [|done].
    by destruct (json_loads (text resp')).
  - destruct (raise_for_status resp) as [[]|e]; [|done].
    by destruct (json_loads (text resp)).
Qed.

(** X25: the region attribute that the constructor stores is never read:
    with any other region the client makes the same calls and gets the
    same results from get_token, request, find_metrics, ingest and
    get_metrics, which always resolve their URL for IAD. *)
Theorem region_attribute_is_unused `{E : Externals} `{F : Formatting}
    (r : string) (w : world) url method data headers params
    query start stop metrics points resolution kwargs :
  get_token (world_set_region r w)
    = (world_set_region r (get_token w).1, (get_token w).2)
  /\ request url method data headers params (world_set_region r w)
    = (world_set_region r (request url method data headers params w).1,
       (request url method data headers params w).2)
  /\ find_metrics query (world_set_region r w)
    = (world_set_region r (find_metrics query w).1, (find_metrics query w).2)
  /\ ingest data (world_set_region r w)
    = (world_set_region r (ingest data w).1, (ingest data w).2)
  /\ get_metrics start stop metrics points resolution kwargs (world_set_region r w)
    = (world_set_region r
         (get_metrics start stop metrics points resolution kwargs w).1,
       (get_metrics start stop metrics points resolution kwargs w).2).
Proof.
  split; [apply get_token_region|]. split; [apply request_region|].
  unfold find_metrics, ingest, get_metrics. run.
  change (read_url (set_region r (client w)) "IAD") with (read_url (client w) "IAD").
  change (ingest_url (set_region r (client w)) "IAD") with (ingest_url (client w) "IAD").
  destruct (read_url (client w) "IAD") as [rb|e], (ingest_url (client w) "IAD") as [ib|e'];
    split_and!; try done; apply request_region.
Qed.

(** ** Closed examples of the further properties *)

(** A ttl_seconds of 3600 is stored as it is. *)
Lemma Datapoint_ttl_nonnegative_witness :
  ttlInSeconds (Datapoint 0 "james.test.number" (PInt 55) None (Some 3600) None)
  = Some (PInt 3600).
Proof.
  destruct (Datapoint_ttl_nonnegative 0 "james.test.number" (PInt 55) None (Some 3600) None)
    as (t & Ht & _ & Hpos).
  rewrite Ht, (Hpos 3600 eq_refl); [reflexivity|lia].
Defined.

(** A keyword argument named points does not reach selects. *)
Lemma selects_ignores_other_keys_witness :
  selects (<["points" := PInt 100]> {[ "max" := PBool true ]}) = "max".
Proof.
  rewrite (selects_ignores_other_keys {[ "max" := PBool true ]} "points" (PInt 100)).
  - vm_compute; reflexivity.
  - unfold selectables. intros H.
    repeat (apply elem_of_cons in H as [H|H]; [discriminate H|]).
    by apply elem_of_nil in H.
Defined.


(** Of two endpoints in IAD, the first one gives the URL. *)
Lemma url_for_region_first_match_witness :
  url_for_region (PDict Fixture.three_endpoints) "IAD"
  = Ok (PStr "https://iad.metrics.example/v2.0/1").
Proof.
  assert (Hpre : no_endpoint_for "IAD" [Sample.ord_endpoint]).
  { constructor; [|constructor]. exists (PStr "ORD"). split; vm_compute; reflexivity. }
  assert (He : endpoint_for "IAD" Sample.iad_endpoint).
  { exists (PStr "IAD"). split; vm_compute; reflexivity. }
  destruct (url_for_region_first_match Fixture.three_endpoints "IAD"
              [Sample.ord_endpoint] [Fixture.iad_second] Sample.iad_endpoint
              eq_refl Hpre He) as [Hurl _].
  rewrite Hurl. vm_compute; reflexivity.
Defined.

(** A string among the endpoints raises AttributeError; a service with no
    endpoints key gives None. *)
Lemma url_for_region_malformed_witness :
  url_for_region (PDict {[ "name" := PStr "cloudMetrics" ]}) "IAD" = Ok PNone
  /\ url_for_region (PDict Fixture.broken_endpoints) "IAD" = Raise AttributeError.
Proof.
  assert (Hpre : no_endpoint_for "IAD" [Sample.ord_endpoint]).
  { constructor; [|constructor]. exists (PStr "ORD"). split; vm_compute; reflexivity. }
  split.
  - apply (url_for_region_malformed {[ "name" := PStr "cloudMetrics" ]} "IAD" [] [] PNone).
    vm_compute; reflexivity.
  - apply (url_for_region_malformed Fixture.broken_endpoints "IAD"
             [Sample.ord_endpoint] [] (PStr "IAD")); [reflexivity|exact Hpre|reflexivity].
Defined.

(** The ingest service is stored, then the entry without a name raises
    KeyError and the read service after it is never stored. *)
Lemma update_catalog_stops_at_bad_entry_witness :
  update_catalog
    (PList [Sample.service "cloudMetricsIngest" [Sample.iad_endpoint];
            Fixture.nameless;
            Sample.service "cloudMetrics" [Sample.iad_endpoint]])
    Sample.start
  = ({| client := set_ingest_service
                    (Sample.service "cloudMetricsIngest" [Sample.iad_endpoint])
                    Sample.fresh;
        log := [] |}, Raise (KeyError "name")).
Proof.
  apply (update_catalog_stops_at_bad_entry
           [Sample.service "cloudMetricsIngest" [Sample.iad_endpoint]]
           [Sample.service "cloudMetrics" [Sample.iad_endpoint]]
           Fixture.nameless Sample.start); vm_compute; reflexivity.
Defined.

(** A catalog with only the cloudServers service changes nothing. *)
Lemma update_catalog_other_entries_witness :
  update_catalog (PList [Fixture.compute]) Sample.start = (Sample.start, Ok tt).
Proof.
  apply update_catalog_other_entries.
  constructor; [|constructor]. exists (PStr "cloudServers").
  split_and!; vm_compute; reflexivity.
Defined.

(** A 403 from the identity endpoint: HTTPError, no token. *)
Lemma get_token_failure_keeps_client_witness :
  get_token (E := Fixture.locked_out) Sample.start
  = ({| client := Sample.fresh;
        log := [identity_call (E := Fixture.locked_out) Sample.fresh] |},
     Raise (HTTPError 403 "Forbidden")).
Proof.
  apply (get_token_failure_keeps_client (E := Fixture.locked_out) Sample.start
           {| status_code := 403; text := "Forbidden" |}
           (HTTPError 403 "Forbidden")); vm_compute; reflexivity.
Defined.

(** A response with a token and no catalog: KeyError, and the token is
    cached for the next call. *)
Lemma get_token_caches_before_catalog_witness :
  get_token (E := Fixture.no_catalog) Sample.start
  = ({| client := set_token (PStr "tok0") Sample.fresh;
        log := [identity_call (E := Fixture.no_catalog) Sample.fresh] |},
     Raise (KeyError "serviceCatalog"))
  /\ get_token (E := Fixture.no_catalog)
       {| client := set_token (PStr "tok0") Sample.fresh;
          log := [identity_call (E := Fixture.no_catalog) Sample.fresh] |}
     = ({| client := set_token (PStr "tok0") Sample.fresh;
           log := [identity_call (E := Fixture.no_catalog) Sample.fresh] |},
        Ok (PStr "tok0")).
Proof.
  assert (Hnet : network (Externals := Fixture.no_catalog) (log Sample.start)
                   (identity_call (E := Fixture.no_catalog) (client Sample.start))
                 = Fixture.token_only 0) by (vm_compute; reflexivity).
  destruct (get_token_caches_before_catalog (E := Fixture.no_catalog) Sample.start
              _ (PStr "tok0") (KeyError "serviceCatalog") eq_refl Hnet eq_refl)
    as [Hfirst Hnext]; [vm_compute; reflexivity..|].
  split; [exact Hfirst|exact (Hnext eq_refl)].
Defined.

(** A 500 from the data plane: HTTPError after one send. *)
Lemma request_without_retry_witness :
  request (E := Fixture.failing) Fixture.search_url GET PNone None Fixture.star Sample.start
  = ({| client := client (Sample.authenticated Fixture.failing);
        log := log (Sample.authenticated Fixture.failing)
               ++ [DataCall GET Fixture.search_url
                     (request_kwargs (E := Fixture.failing) (PStr "tok0") PNone None
                        Fixture.star)] |},
     Raise (HTTPError 500 "Internal Server Error")).
Proof.
  assert (Htok : get_token (E := Fixture.failing) Sample.start
                 = (Sample.authenticated Fixture.failing, Ok (PStr "tok0")))
    by (vm_compute; reflexivity).
  assert (Hnet : network (Externals := Fixture.failing)
                   (log (Sample.authenticated Fixture.failing))
                   (DataCall GET Fixture.search_url
                      (request_kwargs (E := Fixture.failing) (PStr "tok0") PNone None
                         Fixture.star))
                 = Fixture.server_error 0) by (vm_compute; reflexivity).
  destruct (request_without_retry (E := Fixture.failing) Fixture.search_url GET PNone
              None Fixture.star Sample.start _ (PStr "tok0") _ Htok Hnet)
    as (_ & Herr & _); [discriminate|].
  apply Herr. simpl. lia.
Defined.

(** The identity endpoint refuses the credentials: request raises and
    sends nothing. *)
Lemma request_auth_failure_witness :
  (request (E := Fixture.locked_out) Fixture.search_url GET PNone None Fixture.star
     Sample.start).2 = Raise (HTTPError 403 "Forbidden")
  /\ data_sends (log (get_token (E := Fixture.locked_out) Sample.start).1) = 0%nat.
Proof.
  assert (Htok : get_token (E := Fixture.locked_out) Sample.start
                 = ((get_token (E := Fixture.locked_out) Sample.start).1,
                    Raise (HTTPError 403 "Forbidden")))
    by (vm_compute; reflexivity).
  destruct (request_auth_failure (E := Fixture.locked_out) Fixture.search_url GET PNone
              None Fixture.star Sample.start _ _ Htok) as [Hreq Hsends].
  rewrite Hreq. split; [reflexivity|exact Hsends].
Defined.

(** A 401 from the data plane, then a 403 from the identity endpoint:
    request raises that 403 after one send. *)
Lemma request_reauth_failure_witness :
  (request (E := Fixture.revoked) Fixture.search_url GET PNone None Fixture.star
     Sample.start).2 = Raise (HTTPError 403 "Forbidden").
Proof.
  assert (Htok : get_token (E := Fixture.revoked) Sample.start
                 = (Sample.authenticated Fixture.revoked, Ok (PStr "tok0")))
    by (vm_compute; reflexivity).
  pose (first := DataCall GET Fixture.search_url
          (request_kwargs (E := Fixture.revoked) (PStr "tok0") PNone None Fixture.star)).
  pose (w2 := {| client := invalidate_token (client (Sample.authenticated Fixture.revoked));
                 log := log (Sample.authenticated Fixture.revoked) ++ [first] |}).
  assert (Hnet : network (Externals := Fixture.revoked)
                   (log (Sample.authenticated Fixture.revoked)) first
                 = Sample.always_401 0) by (vm_compute; reflexivity).
  assert (Htok' : get_token (E := Fixture.revoked) w2
                  = ((get_token (E := Fixture.revoked) w2).1,
                     Raise (HTTPError 403 "Forbidden")))
    by (vm_compute; reflexivity).
  destruct (request_reauth_failure (E := Fixture.revoked) Fixture.search_url GET PNone
              None Fixture.star Sample.start _ _ (PStr "tok0") _ _
              Htok Hnet eq_refl Htok') as [Hreq _].
  rewrite Hreq. reflexivity.
Defined.

(** The data plane cannot be reached: the exception of the transport is
    the result. *)
Lemma request_transport_failure_witness :
  (request (E := Fixture.offline) Fixture.search_url GET PNone None Fixture.star
     Sample.start).2 = Raise (RequestException "Connection refused").
Proof.
  assert (Htok : get_token (E := Fixture.offline) Sample.start
                 = (Sample.authenticated Fixture.offline, Ok (PStr "tok0")))
    by (vm_compute; reflexivity).
  rewrite (request_transport_failure (E := Fixture.offline) Fixture.search_url GET PNone
             None Fixture.star Sample.start _ (PStr "tok0")
             (RequestException "Connection refused") Htok);
    [reflexivity|vm_compute; reflexivity].
Defined.

(** The caller's X-Auth-Token goes out on the first send and the new token
    on the replay. *)
Lemma request_header_precedence_witness :
  kw_headers (request_kwargs (E := Sample.rejecting) (PStr "tok0") PNone
                (Some Fixture.own_headers) Fixture.star) !! "X-Auth-Token"
  = Some (PStr "mine")
  /\ kw_headers
       (set_headers
          (<["X-Auth-Token" := PStr "tok1"]>
             (kw_headers (request_kwargs (E := Sample.rejecting) (PStr "tok0") PNone
                            (Some Fixture.own_headers) Fixture.star)))
          (request_kwargs (E := Sample.rejecting) (PStr "tok0") PNone
             (Some Fixture.own_headers) Fixture.star)) !! "Accept"
     = Some (PStr "text/plain").
Proof.
  assert (Htok : get_token (E := Sample.rejecting) Sample.start
                 = (Sample.authenticated Sample.rejecting, Ok (PStr "tok0")))
    by (vm_compute; reflexivity).
  pose (first := DataCall GET Fixture.search_url
          (request_kwargs (E := Sample.rejecting) (PStr "tok0") PNone
             (Some Fixture.own_headers) Fixture.star)).
  pose (w2 := {| client := invalidate_token (client (Sample.authenticated Sample.rejecting));
                 log := log (Sample.authenticated Sample.rejecting) ++ [first] |}).
  assert (Hnet : network (Externals := Sample.rejecting)
                   (log (Sample.authenticated Sample.rejecting)) first
                 = Sample.always_401 0) by (vm_compute; reflexivity).
  assert (Htok' : get_token (E := Sample.rejecting) w2
                  = ((get_token (E := Sample.rejecting) w2).1, Ok (PStr "tok1")))
    by (vm_compute; reflexivity).
  destruct (request_header_precedence (E := Sample.rejecting) Fixture.search_url GET
              PNone Fixture.star Fixture.own_headers Sample.start _ _
              (PStr "tok0") (PStr "tok1") _ Htok Hnet eq_refl Htok')
    as (_ & Hfirst & _ & Hother).
  split.
  - rewrite Hfirst. vm_compute; reflexivity.
  - rewrite (Hother "Accept") by discriminate. rewrite Hfirst. vm_compute; reflexivity.
Defined.

(** A client that only has the ingest service: find_metrics raises and
    nothing is sent; a client that only has the read service: ingest
    raises and nothing is sent. *)
Lemma api_raises_before_any_call_witness :
  find_metrics (E := Sample.silent) (F := Fixture.formatting) (PStr "*")
    {| client := set_ingest_service
                   (Sample.service "cloudMetricsIngest" [Sample.iad_endpoint])
                   Sample.fresh;
       log := [] |}
  = ({| client := set_ingest_service
                    (Sample.service "cloudMetricsIngest" [Sample.iad_endpoint])
                    Sample.fresh;
        log := [] |}, Raise (Exception "No read service found"))
  /\ ingest (E := Sample.silent) (F := Fixture.formatting) Fixture.point
       {| client := set_read_service
                      (Sample.service "cloudMetrics" [Sample.iad_endpoint])
                      Sample.fresh;
          log := [] |}
     = ({| client := set_read_service
                       (Sample.service "cloudMetrics" [Sample.iad_endpoint])
                       Sample.fresh;
           log := [] |}, Raise (Exception "No ingest service found")).
Proof.
  split.
  - apply (proj1 (api_raises_before_any_call (E := Sample.silent)
                    (F := Fixture.formatting)
                    {| client := set_ingest_service
                         (Sample.service "cloudMetricsIngest" [Sample.iad_endpoint])
                         Sample.fresh;
                       log := [] |}
                    (PStr "*") (PInt 0) (PInt 10) (PList []) PNone PNone ∅
                    Fixture.point)
                 (Exception "No read service found") eq_refl).
  - apply (proj2 (api_raises_before_any_call (E := Sample.silent)
                    (F := Fixture.formatting)
                    {| client := set_read_service
                         (Sample.service "cloudMetrics" [Sample.iad_endpoint])
                         Sample.fresh;
                       log := [] |}
                    (PStr "*") (PInt 0) (PInt 10) (PList []) PNone PNone ∅
                    Fixture.point)
                 (Exception "No ingest service found") eq_refl).
Defined.

(** A single datapoint is ingested as the list of that datapoint. *)
Lemma ingest_wraps_single_witness :
  ingest (E := Sample.silent) (F := Fixture.formatting) Fixture.point
    {| client := Sample.overridden; log := [] |}
  = request (E := Sample.silent) "https://ingest.example/v2.0/1/ingest" POST
      (PList [Fixture.point]) None PNone {| client := Sample.overridden; log := [] |}.
Proof.
  destruct (ingest_wraps_single (E := Sample.silent) (F := Fixture.formatting)
              Fixture.point (PStr "https://ingest.example/v2.0/1")
              {| client := Sample.overridden; log := [] |} eq_refl) as [Hreq _].
  - intros l. discriminate.
  - exact Hreq.
Defined.

(** A client whose read service only has an endpoint in ORD, with an
    ingest service in IAD, asks for None/metrics/search; one whose ingest
    service only has an endpoint in ORD, with a read service in IAD, posts
    the wrapped datapoint to None/ingest. *)
Lemma api_requests_None_url_witness :
  find_metrics (E := Sample.silent) (F := Fixture.formatting) (PStr "*")
    {| client := set_read_service (Sample.service "cloudMetrics" [Sample.ord_endpoint])
                   (client (Sample.authenticated Sample.silent));
       log := [] |}
  = request (E := Sample.silent) "None/metrics/search" GET PNone None
      (PDict {[ "query" := PStr "*" ]})
      {| client := set_read_service (Sample.service "cloudMetrics" [Sample.ord_endpoint])
                     (client (Sample.authenticated Sample.silent));
         log := [] |}
  /\ ingest (E := Sample.silent) (F := Fixture.formatting)
       (PDict {[ "metricName" := PStr "james.test.number" ]})
       {| client := set_ingest_service
                      (Sample.service "cloudMetricsIngest" [Sample.ord_endpoint])
                      (client (Sample.authenticated Sample.silent));
          log := [] |}
     = request (E := Sample.silent) "None/ingest" POST
         (PList [PDict {[ "metricName" := PStr "james.test.number" ]}]) None PNone
         {| client := set_ingest_service
                        (Sample.service "cloudMetricsIngest" [Sample.ord_endpoint])
                        (client (Sample.authenticated Sample.silent));
            log := [] |}.
Proof.
  assert (Hr : read_url
                 (set_read_service (Sample.service "cloudMetrics" [Sample.ord_endpoint])
                    (client (Sample.authenticated Sample.silent))) "IAD" = Ok PNone)
    by (vm_compute; reflexivity).
  assert (Hi : ingest_url
                 (set_ingest_service
                    (Sample.service "cloudMetricsIngest" [Sample.ord_endpoint])
                    (client (Sample.authenticated Sample.silent))) "IAD" = Ok PNone)
    by (vm_compute; reflexivity).
  destruct (api_requests_None_url (E := Sample.silent) (F := Fixture.formatting)
              {| client := set_read_service
                   (Sample.service "cloudMetrics" [Sample.ord_endpoint])
                   (client (Sample.authenticated Sample.silent));
                 log := [] |}
              (PStr "*") (PInt 0) (PInt 10) (PList []) PNone PNone ∅ PNone)
    as [Hread _].
  destruct (api_requests_None_url (E := Sample.silent) (F := Fixture.formatting)
              {| client := set_ingest_service
                   (Sample.service "cloudMetricsIngest" [Sample.ord_endpoint])
                   (client (Sample.authenticated Sample.silent));
                 log := [] |}
              (PStr "*") (PInt 0) (PInt 10) (PList []) PNone PNone ∅
              (PDict {[ "metricName" := PStr "james.test.number" ]}))
    as [_ Hingest].
  destruct (Hread Hr) as [Hfind _].
  split; [exact Hfind|exact (Hingest Hi)].
Defined.
